(** * Breezy PDF reader: page overlay, viewer and assistant panel

    A shallow embedding of the three React components of the reader
    ([PDFPage], [PDFViewer], [AIAssistant]) and the properties of their
    state containers.

    Conventions of the embedding.
    - A component is a record of its [useState] cells (and the DOM nodes
      behind its refs); an event handler is a function from the state the
      handler closed over to the state after its [set...] calls.  Each
      handler runs against the state committed by the previous one.
    - What a handler reads from the host (the bounding rectangle of the
      event target, the window selection, the answer to [prompt], the result
      of the PDF library) is an argument of the handler.
    - Calls that leave the component (speech synthesis, console, the
      [onPageRendered] callback, toasts) are appended to a log.
    - Pointer coordinates are integer CSS pixels ([Z]); a number inside a
      template literal is printed in decimal, as JavaScript prints an
      integer.  The zoom scale and the viewport size are rationals.  The
      program computes on doubles: what is stated of coordinates uses their
      order, [min], [abs] and subtraction as written in the source, and no
      identity that rounding would break.
    - A string is a sequence of bytes, UTF-8 for text outside ASCII. *)

From stdpp Require Import gmap strings list pretty.
From Stdlib Require Import Ascii String ZArith QArith Qminmax Qround Lia.

Local Open Scope string_scope.
Local Open Scope Z_scope.
Local Open Scope list_scope.

(** ** JavaScript strings and numbers *)

Module JS.

(** [!!s] for a string: only the empty string is falsy. *)
Definition truthy (s : string) : bool :=
  match s with
  | EmptyString => false
  | String _ _ => true
  end.

(** [s || d] on strings. *)
Definition or_else (s d : string) : string :=
  if truthy s then s else d.

(** [`${n}`] for an integer-valued number. *)
Definition num (n : Z) : string := pretty n.

(** The ASCII white space and line terminators: U+0009 to U+000D and
    U+0020. *)
Definition is_space (c : ascii) : bool :=
  let n := nat_of_ascii c in
  ((9 <=? n)%nat && (n <=? 13)%nat) || (n =? 32)%nat.

(** The rest of [s] after a leading white-space or line-terminator code
    point, as [String.prototype.trim] knows them: the ASCII ones, U+00A0
    (C2 A0), U+1680 (E1 9A 80), U+2000 to U+200A (E2 80 80 to E2 80 8A),
    U+2028 and U+2029 (E2 80 A8, E2 80 A9), U+202F (E2 80 AF), U+205F
    (E2 81 9F), U+3000 (E3 80 80) and U+FEFF (EF BB BF). *)
Definition skip_space (s : string) : option string :=
  match s with
  | EmptyString => None
  | String c s1 =>
      if is_space c then Some s1 else
      match s1 with
      | EmptyString => None
      | String d s2 =>
          let c := nat_of_ascii c in
          let d := nat_of_ascii d in
          if ((c =? 194) && (d =? 160))%nat then Some s2 else
          match s2 with
          | EmptyString => None
          | String e s3 =>
              let e := nat_of_ascii e in
              if (((c =? 225) && (d =? 154) && (e =? 128))
                  || ((c =? 226) && (d =? 128)
                      && (((128 <=? e) && (e <=? 138))
                          || (e =? 168) || (e =? 169) || (e =? 175)))
                  || ((c =? 226) && (d =? 129) && (e =? 159))
                  || ((c =? 227) && (d =? 128) && (e =? 128))
                  || ((c =? 239) && (d =? 187) && (e =? 191)))%nat
              then Some s3 else None
          end
      end
  end.

Fixpoint trimStart_from (fuel : nat) (s : string) : string :=
  match fuel with
  | O => s
  | S fuel' =>
      match skip_space s with
      | Some rest => trimStart_from fuel' rest
      | None => s
      end
  end.

(** Each white-space code point takes at least one byte, so the length of
    the string is fuel enough. *)
Definition trimStart (s : string) : string :=
  trimStart_from (String.length s) s.

(** White space only. *)
Definition blank (s : string) : bool := negb (truthy (trimStart s)).

Fixpoint trimEnd (s : string) : string :=
  match s with
  | EmptyString => EmptyString
  | String c s' => if blank s then EmptyString else String c (trimEnd s')
  end.

Definition trim (s : string) : string := trimEnd (trimStart s).

(** The WebIDL conversion of a finite number to [unsigned long]: its
    integer part, modulo [2^32]. *)
Definition toUnsignedLong (q : Q) : Z :=
  (if Qle_bool 0 q then Qfloor q else Qceiling q) mod 2 ^ 32.

(** Setting a reflected [unsigned long] attribute, as [canvas.width] and
    [canvas.height] are: a value above [2^31 - 1] gives the default of the
    attribute. *)
Definition reflectUnsignedLong (default : Z) (q : Q) : Z :=
  let n := toUnsignedLong q in
  if n <=? 2147483647 then n else default.

(** The character [U+0022]. *)
Definition dquote : string := String (ascii_of_nat 34) EmptyString.

(** The character [U+000A], written [\n] in the source. *)
Definition nl : string := String (ascii_of_nat 10) EmptyString.

End JS.

(** ** Geometry read from the DOM *)

Module DOMRect.
Record t : Type := mk { left : Z; top : Z; width : Z; height : Z }.
End DOMRect.

(** [React.MouseEvent]: the pointer position and the bounding rectangle of
    the element the handler is attached to. *)
Module MouseEvent.
Record t : Type := mk { clientX : Z; clientY : Z; targetRect : DOMRect.t }.
End MouseEvent.

(** [window.getSelection()]: whether it is collapsed, the client rectangles
    of its first range and its text. *)
Module Selection.
Record t : Type :=
  mk { isCollapsed : bool; clientRects : list DOMRect.t; toString : string }.
End Selection.

(** ** Annotation entities *)

Module Point.
Record t : Type := mk { x : Z; y : Z }.
End Point.

Module Rect.
Record t : Type := mk { x : Z; y : Z; width : Z; height : Z }.
End Rect.

Module Highlight.
Record t : Type := mk { rects : list Rect.t; color : string }.
End Highlight.

Module PathData.
Record t : Type := mk { path : string; color : string; type : string }.
End PathData.

Module TextAnnotation.
Record t : Type := mk { x : Z; y : Z; text : string }.
End TextAnnotation.

Module Shape.
Record t : Type :=
  mk { type : string; x : Z; y : Z; width : Z; height : Z; color : string }.
End Shape.

(** ** What the PDF library returns *)

Module Viewport.
Record t : Type := mk { width : Q; height : Q }.
End Viewport.

(** An element of [textContent.items]: a [TextItem] carries [str], a
    [TextMarkedContent] does not. *)
Inductive TextContentItem : Type :=
| TextItem (str : string)
| TextMarkedContent.

(** How far the awaited part of [renderPage] gets. *)
Inductive RenderOutcome : Type :=
| GetPageFailed
| RenderFailed (viewport : Viewport.t)
| GetTextContentFailed (viewport : Viewport.t)
| Rendered (viewport : Viewport.t) (items : list TextContentItem).

(** [PDFDocumentProxy]: an object identity and its page count. *)
Module PDFDocumentProxy.
Record t : Type := mk { fingerprint : N; numPages : Z }.
End PDFDocumentProxy.

(** Calls that leave a component. *)
Inductive Effect : Type :=
| SpeechCancel
| SpeechSpeak (text lang : string)
| RemoveAllRanges
| ConsoleError (msg : string)
| OnPageRendered (pageNumber : Z) (textContent : string).

(** ** The page overlay: [PDFPage] *)

Module PDFPage.

(** [PDFPageProps].  [onPageRendered] is optional; a callback is known by
    its identity, which is what the dependency list of the render effect
    compares. *)
Record Props : Type := mkProps {
  pdfDocument : option PDFDocumentProxy.t;
  pageNumber : Z;
  scale : Q;
  activeTool : string;
  highlightColor : string;
  onPageRendered : option N
}.

(** The [width] and [height] of the canvas element, [unsigned long]s. *)
Record Canvas : Type := mkCanvas { canvas_width : Z; canvas_height : Z }.

(** The [useState] cells of the component, the nodes behind its refs (the
    canvas with its size, the text layer with the text of its spans, the
    speech synthesiser) and the log of outside calls. *)
Record State : Type := mkState {
  pageSize : Q * Q;
  isDrawing : bool;
  startPoint : Point.t;
  currentPath : string;
  paths : list PathData.t;
  highlights : list Highlight.t;
  selectedText : string;
  textAnnotations : list TextAnnotation.t;
  shapes : list Shape.t;
  canvasRef : option Canvas;
  textLayerRef : option (list string);
  speechSynthesisRef : bool;
  log : list Effect
}.

(** The state of a freshly mounted component, before its first effect. *)
Definition initial : State :=
  {| pageSize := (0%Q, 0%Q); isDrawing := false;
     startPoint := Point.mk 0 0; currentPath := "";
     paths := []; highlights := []; selectedText := "";
     textAnnotations := []; shapes := [];
     canvasRef := Some (mkCanvas 300 150); textLayerRef := Some [];
     speechSynthesisRef := true; log := [] |}.

Definition setPageSize (v : Q * Q) (s : State) : State :=
  mkState v (isDrawing s) (startPoint s) (currentPath s) (paths s)
    (highlights s) (selectedText s) (textAnnotations s) (shapes s)
    (canvasRef s) (textLayerRef s) (speechSynthesisRef s) (log s).

Definition setIsDrawing (v : bool) (s : State) : State :=
  mkState (pageSize s) v (startPoint s) (currentPath s) (paths s)
    (highlights s) (selectedText s) (textAnnotations s) (shapes s)
    (canvasRef s) (textLayerRef s) (speechSynthesisRef s) (log s).

Definition setStartPoint (v : Point.t) (s : State) : State :=
  mkState (pageSize s) (isDrawing s) v (currentPath s) (paths s)
    (highlights s) (selectedText s) (textAnnotations s) (shapes s)
    (canvasRef s) (textLayerRef s) (speechSynthesisRef s) (log s).

Definition setCurrentPath (v : string) (s : State) : State :=
  mkState (pageSize s) (isDrawing s) (startPoint s) v (paths s)
    (highlights s) (selectedText s) (textAnnotations s) (shapes s)
    (canvasRef s) (textLayerRef s) (speechSynthesisRef s) (log s).

Definition setPaths (v : list PathData.t) (s : State) : State :=
  mkState (pageSize s) (isDrawing s) (startPoint s) (currentPath s) v
    (highlights s) (selectedText s) (textAnnotations s) (shapes s)
    (canvasRef s) (textLayerRef s) (speechSynthesisRef s) (log s).

Definition setHighlights (v : list Highlight.t) (s : State) : State :=
  mkState (pageSize s) (isDrawing s) (startPoint s) (currentPath s) (paths s)
    v (selectedText s) (textAnnotations s) (shapes s)
    (canvasRef s) (textLayerRef s) (speechSynthesisRef s) (log s).

Definition setSelectedText (v : string) (s : State) : State :=
  mkState (pageSize s) (isDrawing s) (startPoint s) (currentPath s) (paths s)
    (highlights s) v (textAnnotations s) (shapes s)
    (canvasRef s) (textLayerRef s) (speechSynthesisRef s) (log s).

Definition setTextAnnotations (v : list TextAnnotation.t) (s : State) : State :=
  mkState (pageSize s) (isDrawing s) (startPoint s) (currentPath s) (paths s)
    (highlights s) (selectedText s) v (shapes s)
    (canvasRef s) (textLayerRef s) (speechSynthesisRef s) (log s).

Definition setShapes (v : list Shape.t) (s : State) : State :=
  mkState (pageSize s) (isDrawing s) (startPoint s) (currentPath s) (paths s)
    (highlights s) (selectedText s) (textAnnotations s) v
    (canvasRef s) (textLayerRef s) (speechSynthesisRef s) (log s).

(** [canvas.width = ...; canvas.height = ...] on the node behind the ref. *)
Definition setCanvas (v : Canvas) (s : State) : State :=
  mkState (pageSize s) (isDrawing s) (startPoint s) (currentPath s) (paths s)
    (highlights s) (selectedText s) (textAnnotations s) (shapes s)
    (Some v) (textLayerRef s) (speechSynthesisRef s) (log s).

(** Replaces the children of the text layer node. *)
Definition setTextLayer (v : list string) (s : State) : State :=
  mkState (pageSize s) (isDrawing s) (startPoint s) (currentPath s) (paths s)
    (highlights s) (selectedText s) (textAnnotations s) (shapes s)
    (canvasRef s) (Some v) (speechSynthesisRef s) (log s).

Definition emit (e : Effect) (s : State) : State :=
  mkState (pageSize s) (isDrawing s) (startPoint s) (currentPath s) (paths s)
    (highlights s) (selectedText s) (textAnnotations s) (shapes s)
    (canvasRef s) (textLayerRef s) (speechSynthesisRef s) (log s ++ [e]).

(** *** Rendering a page *)

(** The guard at the top of [renderPage]. *)
Definition renderPage_ready (p : Props) (s : State) : bool :=
  match pdfDocument p, canvasRef s, textLayerRef s with
  | Some _, Some _, Some _ => true
  | _, _, _ => false
  end.

(** [renderPage] up to its first [await]: the text layer is emptied and the
    four annotation lists are reset.  This part runs inside the effect. *)
Definition renderPage_sync (p : Props) (s : State) : State :=
  if renderPage_ready p s then
    setShapes [] (setTextAnnotations [] (setPaths []
      (setHighlights [] (setTextLayer [] s))))
  else s.

(** The body of [textItems.forEach]: the page text grows by [str] and a
    space, and a span holding [str] is appended to the text layer. *)
Definition collect_item (acc : string * list string) (item : TextContentItem)
  : string * list string :=
  match item with
  | TextItem str => (fst acc +:+ str +:+ " ", snd acc ++ [str])
  | TextMarkedContent => acc
  end.

Definition collect (items : list TextContentItem) (spans : list string)
  : string * list string :=
  fold_left collect_item items ("", spans).

(** Canvas set-up after [getPage] and [getViewport]: the canvas takes the
    viewport size as [unsigned long]s, [pageSize] takes the numbers. *)
Definition setup_canvas (vp : Viewport.t) (s : State) : State :=
  setPageSize (Viewport.width vp, Viewport.height vp)
    (setCanvas
       (mkCanvas (JS.reflectUnsignedLong 300 (Viewport.width vp))
                 (JS.reflectUnsignedLong 150 (Viewport.height vp))) s).

Definition render_error : Effect := ConsoleError "Error rendering page:".

(** [renderPage] from its first [await] on, for each outcome of the library
    calls.  An exception lands in the [catch], which logs it. *)
Definition renderPage_async (p : Props) (r : RenderOutcome) (s : State) : State :=
  match r with
  | GetPageFailed => emit render_error s
  | RenderFailed vp | GetTextContentFailed vp =>
      match canvasRef s with
      | None => emit render_error s
      | Some _ => emit render_error (setup_canvas vp s)
      end
  | Rendered vp items =>
      match canvasRef s with
      | None => emit render_error s
      | Some _ =>
          let s1 := setup_canvas vp s in
          let '(pageText, spans) :=
            collect items (default [] (textLayerRef s1)) in
          let s2 := setTextLayer spans s1 in
          match onPageRendered p with
          | Some _ => emit (OnPageRendered (pageNumber p) pageText) s2
          | None => s2
          end
      end
  end.

(** A whole run of [renderPage] with nothing in between its two parts. *)
Definition renderPage (p : Props) (r : RenderOutcome) (s : State) : State :=
  if renderPage_ready p s then renderPage_async p r (renderPage_sync p s)
  else s.

(** The dependency list [[pdfDocument, pageNumber, scale, onPageRendered]]
    of the render effect, compared as [Object.is] does. *)
Definition same_document (a b : option PDFDocumentProxy.t) : bool :=
  match a, b with
  | Some d, Some d' =>
      (PDFDocumentProxy.fingerprint d =? PDFDocumentProxy.fingerprint d')%N
  | None, None => true
  | _, _ => false
  end.

Definition same_callback (a b : option N) : bool :=
  match a, b with
  | Some f, Some g => (f =? g)%N
  | None, None => true
  | _, _ => false
  end.

Definition deps_changed (old new : Props) : bool :=
  negb (same_document (pdfDocument old) (pdfDocument new)
        && (pageNumber old =? pageNumber new)%Z
        && Qeq_bool (scale old) (scale new)
        && same_callback (onPageRendered old) (onPageRendered new)).

(** A re-render with new props: the render effect runs when one of its
    dependencies changed, and starts [renderPage] under the new props. *)
Definition rerender (old new : Props) (s : State) : State :=
  if deps_changed old new then renderPage_sync new s else s.


(** *** Pointer events *)

(** What [handleMouseDown] may ask the host while it runs:
    [window.getSelection()], the answer to [prompt('Enter text:')] ([None]
    when cancelled) and the bounding rectangle of the text layer. *)
Record Host : Type := mkHost {
  selection : option Selection.t;
  promptResult : option string;
  containerRect : DOMRect.t
}.

(** [e.clientX - rect.left] and [e.clientY - rect.top]. *)
Definition offsetX (e : MouseEvent.t) : Z :=
  MouseEvent.clientX e - DOMRect.left (MouseEvent.targetRect e).

Definition offsetY (e : MouseEvent.t) : Z :=
  MouseEvent.clientY e - DOMRect.top (MouseEvent.targetRect e).

(** One iteration of the loop over [clientRects]. *)
Definition to_layer (container : DOMRect.t) (rect : DOMRect.t) : Rect.t :=
  Rect.mk (DOMRect.left rect - DOMRect.left container)
          (DOMRect.top rect - DOMRect.top container)
          (DOMRect.width rect) (DOMRect.height rect).

(** [handleTextSelection].  Without a text layer node the non-null
    assertion fails and the handler is left by the exception, before any
    update. *)
Definition handleTextSelection (p : Props) (h : Host) (sel : Selection.t)
    (s : State) : State :=
  match textLayerRef s with
  | None => s
  | Some _ =>
      let rects := map (to_layer (containerRect h)) (Selection.clientRects sel) in
      let s1 :=
        if (0 <? List.length rects)%nat then
          setSelectedText (Selection.toString sel)
            (setHighlights
               (highlights s ++ [Highlight.mk rects (highlightColor p)]) s)
        else s in
      emit RemoveAllRanges s1
  end.

Definition handleMouseDown (p : Props) (h : Host) (e : MouseEvent.t)
    (s : State) : State :=
  if negb (JS.truthy (activeTool p)) then s else
  let x := offsetX e in
  let y := offsetY e in
  if (activeTool p =? "pen")%string then
    setCurrentPath ("M " +:+ JS.num x +:+ " " +:+ JS.num y)
      (setStartPoint (Point.mk x y) (setIsDrawing true s))
  else if (activeTool p =? "highlight")%string then
    match selection h with
    | Some sel =>
        if negb (Selection.isCollapsed sel)
        then handleTextSelection p h sel s else s
    | None => s
    end
  else if (activeTool p =? "text")%string then
    match promptResult h with
    | Some text =>
        if JS.truthy text then
          setTextAnnotations
            (textAnnotations s ++ [TextAnnotation.mk x y text]) s
        else s
    | None => s
    end
  else if (activeTool p =? "shape")%string then
    setStartPoint (Point.mk x y) (setIsDrawing true s)
  else if (activeTool p =? "tts")%string then
    match selection h with
    | Some sel =>
        if negb (Selection.isCollapsed sel) && speechSynthesisRef s then
          let text := Selection.toString sel in
          if JS.truthy text then
            emit (SpeechSpeak text "en-US") (emit SpeechCancel s)
          else s
        else s
    | None => s
    end
  else s.

Definition handleMouseMove (p : Props) (e : MouseEvent.t) (s : State) : State :=
  if negb (isDrawing s) || negb (JS.truthy (activeTool p)) then s else
  let x := offsetX e in
  let y := offsetY e in
  if (activeTool p =? "pen")%string then
    setCurrentPath (currentPath s +:+ " L " +:+ JS.num x +:+ " " +:+ JS.num y) s
  else s.

Definition handleMouseUp (p : Props) (e : MouseEvent.t) (s : State) : State :=
  if negb (JS.truthy (activeTool p)) || negb (isDrawing s) then s else
  let x := offsetX e in
  let y := offsetY e in
  let s1 :=
    if (activeTool p =? "pen")%string then
      setCurrentPath ""
        (setPaths
           (paths s ++ [PathData.mk (currentPath s) (highlightColor p) "pen"]) s)
    else if (activeTool p =? "shape")%string then
      let width := Z.abs (x - Point.x (startPoint s)) in
      let height := Z.abs (y - Point.y (startPoint s)) in
      let left := Z.min x (Point.x (startPoint s)) in
      let top := Z.min y (Point.y (startPoint s)) in
      setShapes
        (shapes s ++ [Shape.mk "rectangle" left top width height
                        (highlightColor p)]) s
    else s in
  setIsDrawing false s1.

(** A pointer event as the overlay receives it, with the props of the
    render whose handlers are attached. *)
Inductive Event : Type :=
| MouseDown (p : Props) (h : Host) (e : MouseEvent.t)
| MouseMove (p : Props) (e : MouseEvent.t)
| MouseUp (p : Props) (e : MouseEvent.t)
| TextSelection (p : Props) (h : Host) (sel : Selection.t).

Definition handle (ev : Event) (s : State) : State :=
  match ev with
  | MouseDown p h e => handleMouseDown p h e s
  | MouseMove p e => handleMouseMove p e s
  | MouseUp p e => handleMouseUp p e s
  | TextSelection p h sel => handleTextSelection p h sel s
  end.

(** The events of one page view, handled in arrival order. *)
Definition run (evs : list Event) (s : State) : State :=
  fold_left (fun s ev => handle ev s) evs s.

(** *** Speech clean-up and what the component draws *)

(** [speechSynthesisRef.current.cancel()] behind its null check. *)
Definition cancelSpeech (s : State) : State :=
  if speechSynthesisRef s then emit SpeechCancel s else s.

(** The clean-up of the effect that depends on [[activeTool]]: it runs
    when a re-render brings another tool. *)
Definition tool_cleanup (old new : Props) (s : State) : State :=
  if (activeTool old =? activeTool new)%string then s else cancelSpeech s.

(** Unmounting runs the clean-up of both speech effects. *)
Definition unmount (s : State) : State := cancelSpeech (cancelSpeech s).

(** A re-render with new props: clean-ups of the effects whose dependencies
    changed, then the effects themselves. *)
Definition update (old new : Props) (s : State) : State :=
  rerender old new (tool_cleanup old new s).

(** [style.pointerEvents] of the layer that carries the mouse handlers. *)
Definition pointerEvents (p : Props) : string :=
  if JS.truthy (activeTool p) then "auto" else "none".

(** [style.userSelect] of the text layer. *)
Definition userSelect (p : Props) : string :=
  if (activeTool p =? "highlight")%string || (activeTool p =? "tts")%string
  then "text" else "none".

(** The stroke being drawn is shown while [isDrawing && currentPath]. *)
Definition preview (p : Props) (s : State) : option (string * string) :=
  if isDrawing s && JS.truthy (currentPath s)
  then Some (currentPath s, highlightColor p) else None.

(** [shapes.map]: an element for a shape of type ['rectangle'], [null] for
    any other. *)
Definition drawn_shapes (s : State) : list Shape.t :=
  List.filter (fun sh => (Shape.type sh =? "rectangle")%string) (shapes s).

End PDFPage.

(** ** The assistant panel: [AIAssistant] *)

Module AIAssistant.

Record Props : Type := mkProps {
  pageText : string;
  currentPage : Z;
  totalPages : Z
}.

Record State : Type := mkState {
  query : string;
  response : string;
  isLoading : bool;
  activeTab : string
}.

Definition initial : State :=
  {| query := ""; response := ""; isLoading := false; activeTab := "summary" |}.

(** What a submission does, in order: state updates and the time it waits
    ([setTimeout], in milliseconds). *)
Inductive Step : Type :=
| PreventDefault
| SetIsLoading (b : bool)
| Delay (ms : Z)
| SetResponse (r : string).

(** The [switch] of [handleQuerySubmit] that builds the prompt. *)
Definition build_prompt (p : Props) (s : State) : string :=
  if (activeTab s =? "summary")%string then
    "Summarize the following text in a concise way:" +:+ JS.nl +:+ pageText p
  else if (activeTab s =? "ask")%string then
    "Answer this question based on the text: " +:+ query s +:+ JS.nl +:+ JS.nl
      +:+ "Text: " +:+ pageText p
  else if (activeTab s =? "translate")%string then
    "Translate the following text to " +:+ JS.or_else (query s) "French"
      +:+ ":" +:+ JS.nl +:+ pageText p
  else query s.

(** The [switch] of [mockAIResponse].  [currentPage] and [query] are read
    from the enclosing component. *)
Definition mockResponse (p : Props) (s : State) (tab : string) : string :=
  if (tab =? "summary")%string then
    "## Summary of page " +:+ JS.num (currentPage p) +:+ ":" +:+ JS.nl +:+ JS.nl
      +:+ "This is a simulated AI summary of the text. In a real implementation, this would use the OpenAI API or another AI service to generate an actual summary of the document content."
      +:+ JS.nl +:+ JS.nl
      +:+ "The summary would highlight key points from the page content, main topics, and important details."
  else if (tab =? "ask")%string then
    "Based on the document content, here's the answer to your question:"
      +:+ JS.nl +:+ JS.nl
      +:+ (if JS.truthy (query s)
           then JS.dquote +:+ query s +:+ JS.dquote +:+ JS.nl +:+ JS.nl
           else "")
      +:+ "This is a simulated AI response. In a real implementation, this would provide an answer based on the actual content of the PDF using an AI service like OpenAI's GPT."
  else if (tab =? "translate")%string then
    "Translated text (" +:+ JS.or_else (query s) "French" +:+ "):"
      +:+ JS.nl +:+ JS.nl
      +:+ "This is a simulated translation. In a real implementation, this would provide an actual translation of the selected text using an AI service."
  else "I don't understand that request. Please try again.".

(** [mockAIResponse]: the timer, then the canned answer.  The prompt is
    received and not used. *)
Definition mockAIResponse (p : Props) (s : State) (prompt tab : string)
  : list Step :=
  [Delay 1000; SetResponse (mockResponse p s tab)].

(** [handleQuerySubmit].  Nothing in the [try] block throws, so its [catch]
    is not entered; the [finally] clears the loading flag. *)
Definition handleQuerySubmit (p : Props) (s : State) : list Step :=
  PreventDefault ::
  if negb (JS.truthy (JS.trim (query s)))
     && negb (activeTab s =? "summary")%string
  then []
  else
    SetIsLoading true ::
    mockAIResponse p s (build_prompt p s) (activeTab s)
    ++ [SetIsLoading false].

Definition step (st : Step) (s : State) : State :=
  match st with
  | PreventDefault | Delay _ => s
  | SetIsLoading b => mkState (query s) (response s) b (activeTab s)
  | SetResponse r => mkState (query s) r (isLoading s) (activeTab s)
  end.

(** The state once every step of a submission has taken place. *)
Definition submit (p : Props) (s : State) : State :=
  fold_left (fun s st => step st s) (handleQuerySubmit p s) s.

(** The milliseconds waited by the steps in [pre]. *)
Definition waited (pre : list Step) : Z :=
  fold_right (fun st acc => match st with Delay ms => ms + acc | _ => acc end)
    0 pre.

(** The [disabled] attribute of the three submit buttons. *)
Definition summaryDisabled (p : Props) (s : State) : bool :=
  isLoading s || negb (JS.truthy (pageText p)).

Definition askDisabled (p : Props) (s : State) : bool :=
  isLoading s || negb (JS.truthy (JS.trim (query s)))
  || negb (JS.truthy (pageText p)).

Definition translateDisabled (p : Props) (s : State) : bool :=
  isLoading s || negb (JS.truthy (pageText p)).

(** The result block is rendered under [response &&]. *)
Definition resultShown (s : State) : bool := JS.truthy (response s).

(** The state after the first steps [pre] of a submission. *)
Definition after (pre : list Step) (s : State) : State :=
  fold_left (fun s st => step st s) pre s.

End AIAssistant.

(** ** The viewer: [PDFViewer] *)

Module PDFViewer.

Record Props : Type := mkProps { onPageRender : option N }.

Inductive Notice : Type :=
| Toast (title description : string) (destructive : bool)
| LogError (msg : string)
| OnPageRender (pageNumber : Z) (textContent : string).

Record State : Type := mkState {
  pdfDocument : option PDFDocumentProxy.t;
  totalPages : Z;
  currentPage : Z;
  scale : Q;
  activeTab : string;
  activeTool : string;
  highlightColor : string;
  isAIOpen : bool;
  pageTexts : gmap Z string;
  log : list Notice
}.

Definition initial : State :=
  {| pdfDocument := None; totalPages := 0; currentPage := 1;
     scale := (3 # 2)%Q; activeTab := "view"; activeTool := "";
     highlightColor := "#FEF7CD"; isAIOpen := false; pageTexts := ∅;
     log := [] |}.

Definition setPdfDocument (v : option PDFDocumentProxy.t) (s : State) : State :=
  mkState v (totalPages s) (currentPage s) (scale s) (activeTab s)
    (activeTool s) (highlightColor s) (isAIOpen s) (pageTexts s) (log s).

Definition setTotalPages (v : Z) (s : State) : State :=
  mkState (pdfDocument s) v (currentPage s) (scale s) (activeTab s)
    (activeTool s) (highlightColor s) (isAIOpen s) (pageTexts s) (log s).

Definition setCurrentPage (v : Z) (s : State) : State :=
  mkState (pdfDocument s) (totalPages s) v (scale s) (activeTab s)
    (activeTool s) (highlightColor s) (isAIOpen s) (pageTexts s) (log s).

Definition setPageTexts (v : gmap Z string) (s : State) : State :=
  mkState (pdfDocument s) (totalPages s) (currentPage s) (scale s)
    (activeTab s) (activeTool s) (highlightColor s) (isAIOpen s) v (log s).

Definition emit (n : Notice) (s : State) : State :=
  mkState (pdfDocument s) (totalPages s) (currentPage s) (scale s)
    (activeTab s) (activeTool s) (highlightColor s) (isAIOpen s)
    (pageTexts s) (log s ++ [n]).

(** A [File] and what reading and parsing it gives: the document, or
    [None] when [arrayBuffer] or [getDocument] rejects. *)
Record File : Type := mkFile {
  name : string;
  parsed : option PDFDocumentProxy.t
}.

Definition loadPDF (file : File) (s : State) : State :=
  match parsed file with
  | Some pdf =>
      emit (Toast "PDF Loaded"
              ("Successfully loaded " +:+ JS.dquote +:+ name file
                 +:+ JS.dquote +:+ " ("
                 +:+ JS.num (PDFDocumentProxy.numPages pdf) +:+ " pages)")
              false)
        (setCurrentPage 1
           (setTotalPages (PDFDocumentProxy.numPages pdf)
              (setPdfDocument (Some pdf) s)))
  | None =>
      emit (Toast "Error" "Failed to load PDF file. Please try another file."
              true)
        (emit (LogError "Error loading PDF:") s)
  end.

(** [e.target.files?.[0]] may be absent. *)
Definition handleFileChange (file : option File) (s : State) : State :=
  match file with
  | Some f => loadPDF f s
  | None => s
  end.

Definition goToPage (pageNum : Z) (s : State) : State :=
  if (1 <=? pageNum) && (pageNum <=? totalPages s)
  then setCurrentPage pageNum s else s.

Definition handlePreviousPage (s : State) : State :=
  goToPage (currentPage s - 1) s.

Definition handleNextPage (s : State) : State :=
  goToPage (currentPage s + 1) s.

(** The page input: [goToPage(parseInt(e.target.value) || 1)], where
    [parseInt] gives [None] for [NaN]. *)
Definition handlePageInput (value : option Z) (s : State) : State :=
  goToPage (match value with
            | Some 0 | None => 1
            | Some n => n
            end) s.

Definition handlePageRendered (p : Props) (pageNumber : Z)
    (textContent : string) (s : State) : State :=
  let s1 := setPageTexts (<[pageNumber := textContent]> (pageTexts s)) s in
  match onPageRender p with
  | Some _ => emit (OnPageRender pageNumber textContent) s1
  | None => s1
  end.

(** [pageTexts[currentPage] || ''] *)
Definition getCurrentPageText (s : State) : string :=
  match pageTexts s !! currentPage s with
  | Some t => JS.or_else t ""
  | None => ""
  end.

(** The props of the [PDFPage] element; [handler] is the identity of the
    [handlePageRendered] closure of this render.  The element is mounted
    only while a document is loaded. *)
Definition page_props (handler : N) (s : State) : PDFPage.Props :=
  {| PDFPage.pdfDocument := pdfDocument s;
     PDFPage.pageNumber := currentPage s;
     PDFPage.scale := scale s;
     PDFPage.activeTool := activeTool s;
     PDFPage.highlightColor := highlightColor s;
     PDFPage.onPageRendered := Some handler |}.

(** The props of the [AIAssistant] element. *)
Definition assistant_props (s : State) : AIAssistant.Props :=
  {| AIAssistant.pageText := getCurrentPageText s;
     AIAssistant.currentPage := currentPage s;
     AIAssistant.totalPages := totalPages s |}.

(** What the viewer's user and its page element can make it do. *)
Inductive Action : Type :=
| LoadPDF (file : File)
| GoToPage (pageNum : Z)
| PreviousPage
| NextPage
| PageInput (value : option Z)
| PageRendered (pageNumber : Z) (textContent : string).

Definition act (p : Props) (a : Action) (s : State) : State :=
  match a with
  | LoadPDF f => loadPDF f s
  | GoToPage n => goToPage n s
  | PreviousPage => handlePreviousPage s
  | NextPage => handleNextPage s
  | PageInput v => handlePageInput v s
  | PageRendered n t => handlePageRendered p n t s
  end.

Definition run (p : Props) (acts : list Action) (s : State) : State :=
  fold_left (fun s a => act p a s) acts s.

(** *** Toolbar *)

Definition setScale (v : Q) (s : State) : State :=
  mkState (pdfDocument s) (totalPages s) (currentPage s) v (activeTab s)
    (activeTool s) (highlightColor s) (isAIOpen s) (pageTexts s) (log s).

Definition setActiveTool (v : string) (s : State) : State :=
  mkState (pdfDocument s) (totalPages s) (currentPage s) (scale s)
    (activeTab s) v (highlightColor s) (isAIOpen s) (pageTexts s) (log s).

Definition setHighlightColor (v : string) (s : State) : State :=
  mkState (pdfDocument s) (totalPages s) (currentPage s) (scale s)
    (activeTab s) (activeTool s) v (isAIOpen s) (pageTexts s) (log s).

Definition setIsAIOpen (v : bool) (s : State) : State :=
  mkState (pdfDocument s) (totalPages s) (currentPage s) (scale s)
    (activeTab s) (activeTool s) (highlightColor s) v (pageTexts s) (log s).

(** [Math.min(prev + 0.2, 3)] and [Math.max(prev - 0.2, 0.5)], over exact
    rationals. *)
Definition handleZoomIn (s : State) : State :=
  setScale (Qmin (scale s + (2 # 10)) 3) s.

Definition handleZoomOut (s : State) : State :=
  setScale (Qmax (scale s - (2 # 10)) (5 # 10)) s.

(** The slider reports a percentage: [setScale(value / 100)]. *)
Definition handleSlider (value : Z) (s : State) : State :=
  setScale (value # 100) s.

(** A tool button: [setActiveTool(activeTool === tool ? '' : tool)]. *)
Definition handleToolClick (tool : string) (s : State) : State :=
  setActiveTool (if (activeTool s =? tool)%string then "" else tool) s.

Definition handleToggleAI (s : State) : State :=
  setIsAIOpen (negb (isAIOpen s)) s.

(** The [disabled] attribute of the two arrow buttons. *)
Definition previousDisabled (s : State) : bool := currentPage s <=? 1.

Definition nextDisabled (s : State) : bool := totalPages s <=? currentPage s.

End PDFViewer.

(** ** The page element inside the viewer *)

Module App.

(** The viewer, the number of times it has rendered, and its page element.
    Every render of [PDFViewer] evaluates the arrow function
    [handlePageRendered] anew, so the render count tells the closures of
    one render from those of another. *)
Record State : Type := mk {
  viewer : PDFViewer.State;
  renders : N;
  page : PDFPage.State
}.

(** The props the page element has from the current render. *)
Definition props (a : State) : PDFPage.Props :=
  PDFViewer.page_props (renders a) (viewer a).

(** The viewer renders again with state [v]: the page element, mounted as
    long as a document is loaded, goes from the props of the previous
    render to those of the new one. *)
Definition rerender (v : PDFViewer.State) (a : State) : State :=
  let n := N.succ (renders a) in
  mk v n (PDFPage.update (props a) (PDFViewer.page_props n v) (page a)).

(** A [useState] setter renders again unless the new value is the old
    one. *)
Definition clickTool (tool : string) (a : State) : State :=
  let v := PDFViewer.handleToolClick tool (viewer a) in
  if (PDFViewer.activeTool v =? PDFViewer.activeTool (viewer a))%string
  then a else rerender v a.

Definition pickColor (color : string) (a : State) : State :=
  if (color =? PDFViewer.highlightColor (viewer a))%string
  then a else rerender (PDFViewer.setHighlightColor color (viewer a)) a.

(** [onPageRendered] called by the page element: [setPageTexts] stores a
    new object, so the viewer always renders again. *)
Definition pageRendered (p : PDFViewer.Props) (pageNumber : Z)
    (textContent : string) (a : State) : State :=
  rerender (PDFViewer.handlePageRendered p pageNumber textContent (viewer a)) a.

End App.

(** ** Vocabulary of the properties *)

(** The four annotation lists agree in two states. *)
Definition same_annotations (s s' : PDFPage.State) : Prop :=
  PDFPage.highlights s' = PDFPage.highlights s
  ∧ PDFPage.paths s' = PDFPage.paths s
  ∧ PDFPage.textAnnotations s' = PDFPage.textAnnotations s
  ∧ PDFPage.shapes s' = PDFPage.shapes s.

(** From [s] to [s'] nothing happened to the annotation lists, or one
    list received one entity at its end and the other three are as before. *)
Inductive annotation_step (s s' : PDFPage.State) : Prop :=
| step_none :
    same_annotations s s' → annotation_step s s'
| step_highlight (hl : Highlight.t) :
    PDFPage.highlights s' = PDFPage.highlights s ++ [hl] →
    PDFPage.paths s' = PDFPage.paths s →
    PDFPage.textAnnotations s' = PDFPage.textAnnotations s →
    PDFPage.shapes s' = PDFPage.shapes s →
    annotation_step s s'
| step_path (pd : PathData.t) :
    PDFPage.highlights s' = PDFPage.highlights s →
    PDFPage.paths s' = PDFPage.paths s ++ [pd] →
    PDFPage.textAnnotations s' = PDFPage.textAnnotations s →
    PDFPage.shapes s' = PDFPage.shapes s →
    annotation_step s s'
| step_text (ta : TextAnnotation.t) :
    PDFPage.highlights s' = PDFPage.highlights s →
    PDFPage.paths s' = PDFPage.paths s →
    PDFPage.textAnnotations s' = PDFPage.textAnnotations s ++ [ta] →
    PDFPage.shapes s' = PDFPage.shapes s →
    annotation_step s s'
| step_shape (sh : Shape.t) :
    PDFPage.highlights s' = PDFPage.highlights s →
    PDFPage.paths s' = PDFPage.paths s →
    PDFPage.textAnnotations s' = PDFPage.textAnnotations s →
    PDFPage.shapes s' = PDFPage.shapes s ++ [sh] →
    annotation_step s s'.

(** Every entity of [s] is still in [s'], at its index and as it was. *)
Definition annotations_kept (s s' : PDFPage.State) : Prop :=
  PDFPage.highlights s `prefix_of` PDFPage.highlights s'
  ∧ PDFPage.paths s `prefix_of` PDFPage.paths s'
  ∧ PDFPage.textAnnotations s `prefix_of` PDFPage.textAnnotations s'
  ∧ PDFPage.shapes s `prefix_of` PDFPage.shapes s'.

Definition no_annotations (s : PDFPage.State) : Prop :=
  PDFPage.highlights s = [] ∧ PDFPage.paths s = []
  ∧ PDFPage.textAnnotations s = [] ∧ PDFPage.shapes s = [].

(** One of the document, the page number and the scale differs. *)
Definition page_changed (old new : PDFPage.Props) : Prop :=
  PDFPage.same_document (PDFPage.pdfDocument old) (PDFPage.pdfDocument new)
    = false
  ∨ PDFPage.pageNumber old ≠ PDFPage.pageNumber new
  ∨ ¬ (PDFPage.scale old == PDFPage.scale new)%Q.

(** The text of a page: the string of each text item, in document order,
    each followed by one space. *)
Definition page_text (items : list TextContentItem) : string :=
  fold_right
    (fun item rest =>
       match item with
       | TextItem str => str +:+ " " +:+ rest
       | TextMarkedContent => rest
       end)
    "" items.

(** The SVG path data of a stroke through [pts]: a move to the first point
    and a line to each later one. *)
Definition line_to (pts : list Point.t) : string :=
  fold_right
    (fun q rest =>
       " L " +:+ JS.num (Point.x q) +:+ " " +:+ JS.num (Point.y q) +:+ rest)
    "" pts.

Definition svg_path (first : Point.t) (rest : list Point.t) : string :=
  "M " +:+ JS.num (Point.x first) +:+ " " +:+ JS.num (Point.y first)
    +:+ line_to rest.

(** The position of a pointer event inside the overlay. *)
Definition position (e : MouseEvent.t) : Point.t :=
  Point.mk (PDFPage.offsetX e) (PDFPage.offsetY e).

(** The pointer moving over the overlay, under the props of each render. *)
Definition moves (ms : list (PDFPage.Props * MouseEvent.t))
  : list PDFPage.Event :=
  map (λ m, PDFPage.MouseMove m.1 m.2) ms.

(** A string without the space character. *)
Fixpoint spaceless (s : string) : bool :=
  match s with
  | EmptyString => true
  | String c s' => negb (Ascii.eqb c " ") && spaceless s'
  end.

(** The answer of the assistant as a function of the tab, the page number
    and the query alone. *)
Definition canned (tab : string) (page : Z) (query : string) : string :=
  AIAssistant.mockResponse
    (AIAssistant.mkProps "" page 0)
    (AIAssistant.mkState query "" false tab) tab.

(** A blank query outside the summary tab: the submission is not answered. *)
Definition rejected (s : AIAssistant.State) : bool :=
  negb (JS.truthy (JS.trim (AIAssistant.query s)))
  && negb (AIAssistant.activeTab s =? "summary")%string.

(** The props of the panel with another page text. *)
Definition with_pageText (text : string) (p : AIAssistant.Props)
  : AIAssistant.Props :=
  AIAssistant.mkProps text (AIAssistant.currentPage p)
    (AIAssistant.totalPages p).

(** The current page is a page of the document. *)
Definition in_range (s : PDFViewer.State) : Prop :=
  1 ≤ PDFViewer.currentPage s ≤ PDFViewer.totalPages s.

(** A file that fails to load, or loads with at least one page. *)
Definition loads_a_page (a : PDFViewer.Action) : Prop :=
  match a with
  | PDFViewer.LoadPDF f =>
      match PDFViewer.parsed f with
      | Some pdf => 1 ≤ PDFDocumentProxy.numPages pdf
      | None => True
      end
  | _ => True
  end.

(** *** Reachable overlay states *)

(** What can happen to a mounted overlay: a pointer event, a re-render
    with new props, and the completion of a pending [renderPage]. *)
Inductive transition : PDFPage.State → PDFPage.State → Prop :=
| t_event ev s : transition s (PDFPage.handle ev s)
| t_update old new s : transition s (PDFPage.update old new s)
| t_render p r s : transition s (PDFPage.renderPage_async p r s).

Definition reachable (s : PDFPage.State) : Prop :=
  rtc transition PDFPage.initial s.

(** Every stored entity has the form its creator gives it. *)
Definition well_formed (s : PDFPage.State) : Prop :=
  Forall (λ hl, Highlight.rects hl ≠ []) (PDFPage.highlights s)
  ∧ Forall (λ pd, PathData.type pd = "pen") (PDFPage.paths s)
  ∧ Forall (λ ta, TextAnnotation.text ta ≠ "") (PDFPage.textAnnotations s)
  ∧ Forall (λ sh, Shape.type sh = "rectangle"
                  ∧ 0 ≤ Shape.width sh ∧ 0 ≤ Shape.height sh)
      (PDFPage.shapes s).



(** Pointer moves and mouse-ups only. *)
Definition no_mouse_down (ev : PDFPage.Event) : Prop :=
  match ev with
  | PDFPage.MouseMove _ _ | PDFPage.MouseUp _ _ => True
  | _ => False
  end.

(** The zoom range of the toolbar. *)
Definition zoom_in_bounds (s : PDFViewer.State) : Prop :=
  (5 # 10 <= PDFViewer.scale s)%Q ∧ (PDFViewer.scale s <= 3)%Q.

(** ** Sample data *)

Module Sample.

Definition doc : PDFDocumentProxy.t := PDFDocumentProxy.mk 7 3.

Definition props (tool : string) (page : Z) (scale : Q) : PDFPage.Props :=
  PDFPage.mkProps (Some doc) page scale tool "#FEF7CD" (Some 0%N).

Definition overlay : DOMRect.t := DOMRect.mk 10 20 900 1200.

Definition at_ (x y : Z) : MouseEvent.t := MouseEvent.mk x y overlay.

Definition idle : PDFPage.Host := PDFPage.mkHost None None overlay.

(** A page carrying one annotation of each kind. *)
Definition annotated : PDFPage.State :=
  PDFPage.setShapes [Shape.mk "rectangle" 20 40 20 30 "#FEF7CD"]
    (PDFPage.setTextAnnotations [TextAnnotation.mk 5 6 "note"]
       (PDFPage.setPaths [PathData.mk "M 5 5 L 6 0" "#FEF7CD" "pen"]
          (PDFPage.setHighlights
             [Highlight.mk [Rect.mk 1 2 30 12] "#F2FCE2"] PDFPage.initial))).

End Sample.

(** ** Pointer events only ever append *)

Section AppendOnly.

Import PDFPage.

Lemma same_annotations_refl s : same_annotations s s.
Proof. by repeat split. Qed.

Lemma annotation_step_refl s : annotation_step s s.
Proof. apply step_none, same_annotations_refl. Qed.

(** Closes a case in which no annotation list was assigned. *)
Ltac untouched := apply step_none; by repeat split.

Lemma handleTextSelection_step p h sel s :
  annotation_step s (handleTextSelection p h sel s).
Proof.
  unfold handleTextSelection.
  destruct (textLayerRef s); [|untouched].
  destruct (0 <? _)%nat; simpl; [by eapply step_highlight|untouched].
Qed.

Lemma handleMouseDown_step p h e s :
  annotation_step s (handleMouseDown p h e s).
Proof.
  unfold handleMouseDown.
  repeat (case_match; try apply handleTextSelection_step; try untouched).
  by eapply step_text.
Qed.

Lemma handleMouseMove_step p e s :
  annotation_step s (handleMouseMove p e s).
Proof.
  unfold handleMouseMove.
  repeat (case_match; try untouched).
Qed.

Lemma handleMouseUp_step p e s :
  annotation_step s (handleMouseUp p e s).
Proof.
  unfold handleMouseUp.
  destruct (_ || _); [untouched|].
  destruct (activeTool p =? "pen")%string; [by eapply step_path|].
  destruct (activeTool p =? "shape")%string; [by eapply step_shape|].
  untouched.
Qed.

Lemma handle_step ev s : annotation_step s (handle ev s).
Proof.
  destruct ev; simpl;
    auto using handleMouseDown_step, handleMouseMove_step,
               handleMouseUp_step, handleTextSelection_step.
Qed.

Lemma annotation_step_kept s s' : annotation_step s s' → annotations_kept s s'.
Proof.
  unfold annotations_kept.
  intros [(-> & -> & -> & ->)|hl -> -> -> ->|pd -> -> -> ->
         |ta -> -> -> ->|sh -> -> -> ->];
    repeat split; try reflexivity; by apply prefix_app_r.
Qed.

Lemma annotations_kept_trans s1 s2 s3 :
  annotations_kept s1 s2 → annotations_kept s2 s3 → annotations_kept s1 s3.
Proof.
  intros (?&?&?&?) (?&?&?&?); repeat split; by etrans.
Qed.

Lemma run_kept evs s : annotations_kept s (run evs s).
Proof.
  revert s; induction evs as [|ev evs IH]; intros s; simpl.
  - apply annotation_step_kept, annotation_step_refl.
  - eapply annotations_kept_trans; [|apply IH].
    apply annotation_step_kept, handle_step.
Qed.

(** C1.  Each pointer-event handler (mouse down, mouse move, mouse up, text
    selection) leaves the four annotation lists as they are or appends one
    entity to the end of one of them; hence, over any sequence of pointer
    events of a page view, every entity stays where it is, unchanged. *)
Theorem pointer_events_append_only :
  (∀ p h e s, annotation_step s (handleMouseDown p h e s))
  ∧ (∀ p e s, annotation_step s (handleMouseMove p e s))
  ∧ (∀ p e s, annotation_step s (handleMouseUp p e s))
  ∧ (∀ p h sel s, annotation_step s (handleTextSelection p h sel s))
  ∧ (∀ evs s, annotations_kept s (run evs s)).
Proof.
  repeat split;
    auto using handleMouseDown_step, handleMouseMove_step,
               handleMouseUp_step, handleTextSelection_step.
  all: apply run_kept.
Qed.

End AppendOnly.

(** ** Rendering a page resets the annotations *)

Section Reset.

Import PDFPage.

Lemma renderPage_sync_ready p s :
  renderPage_ready p s = true → no_annotations (renderPage_sync p s).
Proof. unfold renderPage_sync; intros ->; by repeat split. Qed.

Lemma renderPage_async_same p r s :
  same_annotations s (renderPage_async p r s).
Proof.
  unfold renderPage_async.
  repeat (case_match; simpl); by repeat split.
Qed.

Lemma no_annotations_same s s' :
  no_annotations s → same_annotations s s' → no_annotations s'.
Proof.
  intros (?&?&?&?) (?&?&?&?); repeat split; congruence.
Qed.

Lemma scale_changed_deps old new :
  ¬ (scale old == scale new)%Q → deps_changed old new = true.
Proof.
  intros Hne. unfold deps_changed.
  destruct (Qeq_bool (scale old) (scale new)) eqn:E.
  - by apply Qeq_bool_iff in E.
  - by rewrite andb_false_r.
Qed.

Lemma page_changed_deps old new :
  page_changed old new → deps_changed old new = true.
Proof.
  intros [Hd|[Hp|Hs]]; [| |by apply scale_changed_deps];
    unfold deps_changed.
  - by rewrite Hd.
  - apply Z.eqb_neq in Hp. rewrite Hp. by rewrite andb_false_r.
Qed.

(** The identity of [onPageRendered] is a dependency too: a re-render of
    the parent that passes a new closure, and nothing else new, starts
    [renderPage] again and with it the reset. *)
Remark new_callback_rerenders old new s :
  same_callback (onPageRendered old) (onPageRendered new) = false →
  renderPage_ready new s = true →
  no_annotations (rerender old new s).
Proof.
  intros Hcb Hready. unfold rerender, deps_changed.
  rewrite Hcb, andb_false_r. by apply renderPage_sync_ready.
Qed.

(** C2.  When the document, the page number or the scale changes, the
    render effect runs and, once past its guard, [renderPage] empties the
    four annotation lists before any library call; they are still empty
    when the page has been rendered, whatever the outcome of the
    rendering.  The same holds for every run of [renderPage]. *)
Theorem render_resets_annotations old new s :
  renderPage_ready new s = true →
  page_changed old new →
  no_annotations (rerender old new s)
  ∧ (∀ r, no_annotations (renderPage_async new r (rerender old new s)))
  ∧ (∀ r, no_annotations (renderPage new r s)).
Proof.
  intros Hready Hch.
  unfold rerender, renderPage.
  rewrite (page_changed_deps _ _ Hch), Hready.
  pose proof (renderPage_sync_ready _ _ Hready) as Hnone.
  split; [exact Hnone|].
  split; intros r;
    apply (no_annotations_same _ _ Hnone (renderPage_async_same _ r _)).
Qed.

Lemma render_resets_annotations_witness :
  let old := Sample.props "pen" 1 (3 # 2) in
  let new := Sample.props "pen" 2 (3 # 2) in
  renderPage_ready new Sample.annotated = true
  ∧ page_changed old new
  ∧ no_annotations (rerender old new Sample.annotated)
  ∧ (∀ r, no_annotations
            (renderPage_async new r (rerender old new Sample.annotated)))
  ∧ (∀ r, no_annotations (renderPage new r Sample.annotated)).
Proof.
  intros old new.
  assert (Hready : renderPage_ready new Sample.annotated = true)
    by reflexivity.
  assert (Hch : page_changed old new) by (right; left; simpl; lia).
  split; [exact Hready|]. split; [exact Hch|].
  exact (render_resets_annotations old new Sample.annotated Hready Hch).
Defined.

End Reset.

(** ** A change of scale *)

Section Rescale.

Import PDFPage.

(** C3, as stated, fails: after a re-render at another scale the earlier
    annotations are not in place any more.  Here the page with one
    annotation of each kind goes from scale 1.5 to scale 2. *)
Lemma rescale_keeps_annotations_counterexample :
  let old := Sample.props "pen" 1 (3 # 2) in
  let new := Sample.props "pen" 1 2 in
  renderPage_ready new Sample.annotated = true
  ∧ ¬ (scale old == scale new)%Q
  ∧ shapes Sample.annotated = [Shape.mk "rectangle" 20 40 20 30 "#FEF7CD"]
  ∧ shapes (rerender old new Sample.annotated) = []
  ∧ ¬ annotations_kept Sample.annotated (rerender old new Sample.annotated).
Proof.
  simpl. repeat split; try reflexivity.
  - intros H; vm_compute in H; discriminate.
  - intros ([k Hk] & _). vm_compute in Hk. discriminate.
Qed.

(** C3, amended.  When the scale changes, the earlier annotations are
    neither kept nor transformed: the re-render at the new scale empties the
    four lists, they stay empty while the page is rendered, and no earlier
    annotation is on the page afterwards. *)
Theorem rescale_discards_annotations old new r s :
  renderPage_ready new s = true →
  ¬ (scale old == scale new)%Q →
  let s' := renderPage_async new r (rerender old new s) in
  no_annotations (rerender old new s)
  ∧ no_annotations s'
  ∧ (∀ hl, hl ∈ highlights s → hl ∉ highlights s')
  ∧ (∀ pd, pd ∈ paths s → pd ∉ paths s')
  ∧ (∀ ta, ta ∈ textAnnotations s → ta ∉ textAnnotations s')
  ∧ (∀ sh, sh ∈ shapes s → sh ∉ shapes s').
Proof.
  intros Hready Hscale s'.
  assert (Hsync : no_annotations (rerender old new s)).
  { unfold rerender. rewrite (scale_changed_deps _ _ Hscale).
    by apply renderPage_sync_ready. }
  assert (Hs' : no_annotations s')
    by apply (no_annotations_same _ _ Hsync (renderPage_async_same _ _ _)).
  destruct Hs' as (Hh & Hp & Ht & Hsh).
  split; [exact Hsync|]. split; [by repeat split|].
  rewrite Hh, Hp, Ht, Hsh.
  repeat split; intros ? _; apply not_elem_of_nil.
Qed.

Lemma rescale_discards_annotations_witness :
  let old := Sample.props "pen" 1 (3 # 2) in
  let new := Sample.props "pen" 1 2 in
  let r := Rendered (Viewport.mk 816 1056) [TextItem "Hello"] in
  let s' := renderPage_async new r (rerender old new Sample.annotated) in
  renderPage_ready new Sample.annotated = true
  ∧ ¬ (scale old == scale new)%Q
  ∧ no_annotations (rerender old new Sample.annotated)
  ∧ no_annotations s'
  ∧ (∀ hl, hl ∈ highlights Sample.annotated → hl ∉ highlights s')
  ∧ (∀ pd, pd ∈ paths Sample.annotated → pd ∉ paths s')
  ∧ (∀ ta, ta ∈ textAnnotations Sample.annotated → ta ∉ textAnnotations s')
  ∧ (∀ sh, sh ∈ shapes Sample.annotated → sh ∉ shapes s').
Proof.
  intros old new r s'.
  assert (Hready : renderPage_ready new Sample.annotated = true)
    by reflexivity.
  assert (Hscale : ¬ (scale old == scale new)%Q)
    by (intros H; vm_compute in H; discriminate).
  split; [exact Hready|]. split; [exact Hscale|].
  exact (rescale_discards_annotations old new r Sample.annotated Hready Hscale).
Defined.

End Rescale.

(** ** Highlights *)

Section Highlights.

Import PDFPage.

Lemma handleTextSelection_highlights p h sel s :
  is_Some (textLayerRef s) →
  highlights (handleTextSelection p h sel s)
  = match Selection.clientRects sel with
    | [] => highlights s
    | _ :: _ =>
        highlights s
        ++ [Highlight.mk
              (map (to_layer (containerRect h)) (Selection.clientRects sel))
              (highlightColor p)]
    end.
Proof.
  intros [layer Hl]. unfold handleTextSelection. rewrite Hl.
  by destruct (Selection.clientRects sel).
Qed.

(** C4.  With the highlight tool, a mouse-down over a selection that is not
    collapsed appends one highlight when the selection has a client
    rectangle, and none otherwise.  Its rectangles are the client rectangles
    moved into the frame of the text layer (left minus the layer's left, top
    minus the layer's top, same width and height), its colour is the
    selected highlight colour, the other lists are untouched, and after any
    later pointer events the highlight is still there with the same
    rectangles. *)
Theorem highlight_from_selection p h e sel s :
  activeTool p = "highlight" →
  selection h = Some sel →
  Selection.isCollapsed sel = false →
  is_Some (textLayerRef s) →
  let s' := handleMouseDown p h e s in
  let c := containerRect h in
  let hl :=
    Highlight.mk
      (map (λ r, Rect.mk (DOMRect.left r - DOMRect.left c)
                         (DOMRect.top r - DOMRect.top c)
                         (DOMRect.width r) (DOMRect.height r))
           (Selection.clientRects sel))
      (highlightColor p) in
  (Selection.clientRects sel ≠ [] → highlights s' = highlights s ++ [hl])
  ∧ (Selection.clientRects sel = [] → highlights s' = highlights s)
  ∧ paths s' = paths s
  ∧ textAnnotations s' = textAnnotations s
  ∧ shapes s' = shapes s
  ∧ (Selection.clientRects sel ≠ [] →
     ∀ evs, highlights (run evs s') !! List.length (highlights s) = Some hl).
Proof.
  intros Htool Hsel Hcol Href s' c hl.
  assert (Hs' : s' = handleTextSelection p h sel s).
  { unfold s', handleMouseDown. by rewrite Htool, Hsel, Hcol. }
  assert (Hhl : Selection.clientRects sel ≠ [] →
                highlights s' = highlights s ++ [hl]).
  { intros Hne. rewrite Hs', handleTextSelection_highlights by done.
    by destruct (Selection.clientRects sel). }
  split; [exact Hhl|].
  split.
  { intros Hnil. rewrite Hs', handleTextSelection_highlights by done.
    by rewrite Hnil. }
  destruct Href as [layer Hl].
  repeat split.
  1-3: rewrite Hs'; unfold handleTextSelection; rewrite Hl;
       by destruct (0 <? _)%nat.
  intros Hne evs.
  destruct (run_kept evs s') as (Hpre & _).
  eapply prefix_lookup_Some; [|exact Hpre].
  rewrite (Hhl Hne). by apply list_lookup_middle.
Qed.

Lemma highlight_from_selection_witness :
  let p := Sample.props "highlight" 1 (3 # 2) in
  let sel :=
    Selection.mk false [DOMRect.mk 110 220 80 14; DOMRect.mk 60 236 45 14]
      "two lines" in
  let h := mkHost (Some sel) None (DOMRect.mk 10 20 900 1200) in
  let e := Sample.at_ 120 225 in
  let s' := handleMouseDown p h e Sample.annotated in
  let hl := Highlight.mk [Rect.mk 100 200 80 14; Rect.mk 50 216 45 14]
              "#FEF7CD" in
  activeTool p = "highlight"
  ∧ selection h = Some sel
  ∧ Selection.isCollapsed sel = false
  ∧ is_Some (textLayerRef Sample.annotated)
  ∧ (Selection.clientRects sel ≠ [] →
     highlights s' = highlights Sample.annotated ++ [hl])
  ∧ (Selection.clientRects sel = [] →
     highlights s' = highlights Sample.annotated)
  ∧ paths s' = paths Sample.annotated
  ∧ textAnnotations s' = textAnnotations Sample.annotated
  ∧ shapes s' = shapes Sample.annotated
  ∧ (Selection.clientRects sel ≠ [] →
     ∀ evs, highlights (run evs s') !! 1%nat = Some hl).
Proof.
  intros p sel h e s' hl.
  assert (Hsome : is_Some (textLayerRef Sample.annotated)) by (by eexists).
  split; [reflexivity|]. split; [reflexivity|]. split; [reflexivity|].
  split; [exact Hsome|].
  exact (highlight_from_selection p h e sel Sample.annotated
           eq_refl eq_refl eq_refl Hsome).
Defined.

End Highlights.

(** ** The assistant's answers *)

Section Assistant.

Import AIAssistant.

Lemma mockResponse_canned p s tab :
  mockResponse p s tab = canned tab (currentPage p) (query s).
Proof. reflexivity. Qed.

Lemma handleQuerySubmit_steps p s :
  handleQuerySubmit p s
  = if rejected s then [PreventDefault]
    else [PreventDefault; SetIsLoading true; Delay 1000;
          SetResponse (canned (activeTab s) (currentPage p) (query s));
          SetIsLoading false].
Proof.
  unfold handleQuerySubmit, rejected, mockAIResponse.
  by destruct (_ && _).
Qed.

(** C5.  The steps of a submission do not depend on the page text.  Every
    response a submission sets is the canned text for the active tab, the
    current page number and the typed query, and 1000 milliseconds have been
    waited before it is set.  A submission that is not rejected for a blank
    query sets exactly one such response, which is then the one shown. *)
Theorem assistant_answer_is_canned p s :
  (∀ text, handleQuerySubmit (with_pageText text p) s = handleQuerySubmit p s)
  ∧ (∀ pre r post,
       handleQuerySubmit p s = pre ++ SetResponse r :: post →
       r = canned (activeTab s) (currentPage p) (query s)
       ∧ Delay 1000 ∈ pre
       ∧ waited pre = 1000)
  ∧ handleQuerySubmit p s
    = (if rejected s then [PreventDefault]
       else [PreventDefault; SetIsLoading true; Delay 1000;
             SetResponse (canned (activeTab s) (currentPage p) (query s));
             SetIsLoading false])
  ∧ response (submit p s)
    = (if rejected s then response s
       else canned (activeTab s) (currentPage p) (query s)).
Proof.
  split; [|split; [|split]].
  - intros text. by rewrite !handleQuerySubmit_steps.
  - intros pre r post. rewrite handleQuerySubmit_steps.
    destruct (rejected s); intros H.
    + destruct pre as [|? [|? ?]]; discriminate.
    + destruct pre as [|a1 [|a2 [|a3 [|a4 pre]]]]; simplify_eq/=.
      * split; [done|]. split; [set_solver|done].
      * destruct pre as [|a5 [|a6 pre]]; discriminate.
  - apply handleQuerySubmit_steps.
  - unfold submit. rewrite handleQuerySubmit_steps.
    by destruct (rejected s).
Qed.

Lemma assistant_answer_is_canned_witness :
  let p := mkProps "Lorem ipsum dolor sit amet." 3 12 in
  let s := mkState "es" "" false "translate" in
  let answer :=
    "Translated text (es):" +:+ JS.nl +:+ JS.nl
      +:+ "This is a simulated translation. In a real implementation, this would provide an actual translation of the selected text using an AI service." in
  handleQuerySubmit p s
  = [PreventDefault; SetIsLoading true; Delay 1000; SetResponse answer;
     SetIsLoading false]
  ∧ (answer = canned (activeTab s) (currentPage p) (query s)
     ∧ Delay 1000 ∈ [PreventDefault; SetIsLoading true; Delay 1000]
     ∧ waited [PreventDefault; SetIsLoading true; Delay 1000] = 1000).
Proof.
  intros p s answer.
  split; [reflexivity|].
  exact (proj1 (proj2 (assistant_answer_is_canned p s))
           [PreventDefault; SetIsLoading true; Delay 1000] answer
           [SetIsLoading false] eq_refl).
Defined.

End Assistant.

(** ** From the rendered page to the assistant *)

Section PageText.

Lemma string_app_cons ch (a b : string) :
  String ch a +:+ b = String ch (a +:+ b).
Proof. reflexivity. Qed.

Lemma string_app_assoc (a b c : string) : (a +:+ b) +:+ c = a +:+ b +:+ c.
Proof.
  induction a as [|ch a IH]; [done|].
  by rewrite !string_app_cons, IH.
Qed.

Lemma string_app_nil_r (a : string) : a +:+ "" = a.
Proof.
  induction a as [|ch a IH]; [done|].
  by rewrite string_app_cons, IH.
Qed.

Lemma or_else_empty (t : string) : JS.or_else t "" = t.
Proof. by destruct t. Qed.

Lemma collect_item_fold items acc spans :
  fst (fold_left PDFPage.collect_item items (acc, spans))
  = acc +:+ page_text items.
Proof.
  revert acc spans; induction items as [|[str|] items IH]; intros acc spans.
  - simpl. by rewrite string_app_nil_r.
  - change (fold_left PDFPage.collect_item (TextItem str :: items) (acc, spans))
      with (fold_left PDFPage.collect_item items
              (acc +:+ str +:+ " ", spans ++ [str])).
    rewrite IH.
    change (page_text (TextItem str :: items))
      with (str +:+ " " +:+ page_text items).
    by rewrite !string_app_assoc.
  - apply IH.
Qed.

Lemma collect_page_text items spans :
  fst (PDFPage.collect items spans) = page_text items.
Proof. unfold PDFPage.collect. by rewrite collect_item_fold. Qed.

Lemma renderPage_log p vp items s cb :
  PDFPage.renderPage_ready p s = true →
  PDFPage.onPageRendered p = Some cb →
  PDFPage.log (PDFPage.renderPage p (Rendered vp items) s)
  = PDFPage.log s ++ [OnPageRendered (PDFPage.pageNumber p) (page_text items)].
Proof.
  intros Hready Hcb.
  unfold PDFPage.renderPage, PDFPage.renderPage_sync. rewrite Hready.
  unfold PDFPage.renderPage_ready in Hready.
  destruct (PDFPage.pdfDocument p), (PDFPage.canvasRef s) eqn:Hc,
    (PDFPage.textLayerRef s); try discriminate.
  unfold PDFPage.renderPage_async; simpl. rewrite Hc, Hcb.
  pose proof (collect_page_text items []) as Htext.
  destruct (PDFPage.collect items []) as [text spans]; simpl in *.
  by rewrite Htext.
Qed.

Lemma getCurrentPageText_lookup v :
  PDFViewer.getCurrentPageText v
  = default "" (PDFViewer.pageTexts v !! PDFViewer.currentPage v).
Proof.
  unfold PDFViewer.getCurrentPageText.
  destruct (_ !! _); simpl; [apply or_else_empty|done].
Qed.

Lemma handlePageRendered_pageTexts vp n t v :
  PDFViewer.pageTexts (PDFViewer.handlePageRendered vp n t v)
  = <[n := t]> (PDFViewer.pageTexts v).
Proof.
  unfold PDFViewer.handlePageRendered. by destruct (PDFViewer.onPageRender vp).
Qed.

Lemma handlePageRendered_currentPage vp n t v :
  PDFViewer.currentPage (PDFViewer.handlePageRendered vp n t v)
  = PDFViewer.currentPage v.
Proof.
  unfold PDFViewer.handlePageRendered. by destruct (PDFViewer.onPageRender vp).
Qed.

(** C6.  A successful render of page [pageNumber p] calls [onPageRendered]
    once, with the page number and the strings of the text items in
    document order, each followed by one space.  The viewer stores that text
    under the page number and leaves the texts of the other pages alone, and
    the assistant panel receives the text stored for the current page, or
    the empty string when there is none. *)
Theorem page_text_reaches_assistant p vp items s cb :
  PDFPage.renderPage_ready p s = true →
  PDFPage.onPageRendered p = Some cb →
  PDFPage.log (PDFPage.renderPage p (Rendered vp items) s)
  = PDFPage.log s ++ [OnPageRendered (PDFPage.pageNumber p) (page_text items)]
  ∧ (∀ props v,
       let v' :=
         PDFViewer.handlePageRendered props (PDFPage.pageNumber p)
           (page_text items) v in
       PDFViewer.pageTexts v' !! PDFPage.pageNumber p = Some (page_text items)
       ∧ (∀ q, q ≠ PDFPage.pageNumber p →
               PDFViewer.pageTexts v' !! q = PDFViewer.pageTexts v !! q)
       ∧ (PDFViewer.currentPage v = PDFPage.pageNumber p →
          AIAssistant.pageText (PDFViewer.assistant_props v')
          = page_text items))
  ∧ (∀ v, AIAssistant.pageText (PDFViewer.assistant_props v)
          = default "" (PDFViewer.pageTexts v !! PDFViewer.currentPage v)).
Proof.
  intros Hready Hcb.
  split; [by eapply renderPage_log|].
  split; [|intros v; apply getCurrentPageText_lookup].
  intros props v v'. unfold v'.
  rewrite handlePageRendered_pageTexts.
  split; [by rewrite lookup_insert_eq|].
  split; [intros q Hq; by rewrite lookup_insert_ne|].
  intros Hcur. simpl.
  rewrite getCurrentPageText_lookup, handlePageRendered_pageTexts,
    handlePageRendered_currentPage, Hcur.
  by rewrite lookup_insert_eq.
Qed.

Lemma page_text_reaches_assistant_witness :
  let p := Sample.props "" 2 (3 # 2) in
  let items := [TextItem "Hello"; TextMarkedContent; TextItem "world"] in
  PDFPage.renderPage_ready p PDFPage.initial = true
  ∧ PDFPage.onPageRendered p = Some 0%N
  ∧ page_text items = "Hello world "
  ∧ PDFPage.log
      (PDFPage.renderPage p (Rendered (Viewport.mk 918 1188) items)
         PDFPage.initial)
    = [OnPageRendered 2 "Hello world "].
Proof.
  intros p items.
  split; [reflexivity|]. split; [reflexivity|]. split; [reflexivity|].
  exact (proj1 (page_text_reaches_assistant p (Viewport.mk 918 1188) items
                  PDFPage.initial 0%N eq_refl eq_refl)).
Defined.

End PageText.

(** ** Page navigation *)

Section Navigation.

Import PDFViewer.

Lemma goToPage_inside n s :
  1 ≤ n ≤ totalPages s → goToPage n s = setCurrentPage n s.
Proof.
  intros [H1 H2]. unfold goToPage.
  apply Z.leb_le in H1, H2. by rewrite H1, H2.
Qed.

Lemma goToPage_outside n s :
  ¬ (1 ≤ n ≤ totalPages s) → goToPage n s = s.
Proof.
  intros H. unfold goToPage.
  destruct (1 <=? n) eqn:H1; [|done].
  destruct (n <=? totalPages s) eqn:H2; [|done].
  apply Z.leb_le in H1, H2. lia.
Qed.

Lemma goToPage_in_range n s : in_range s → in_range (goToPage n s).
Proof.
  intros Hs.
  destruct (decide (1 ≤ n ≤ totalPages s)) as [Hn|Hn].
  - rewrite goToPage_inside by done. exact Hn.
  - by rewrite goToPage_outside.
Qed.

Lemma loadPDF_success file pdf s :
  parsed file = Some pdf →
  pdfDocument (loadPDF file s) = Some pdf
  ∧ totalPages (loadPDF file s) = PDFDocumentProxy.numPages pdf
  ∧ currentPage (loadPDF file s) = 1.
Proof. intros H. unfold loadPDF. by rewrite H. Qed.

Lemma loadPDF_failure file s :
  parsed file = None →
  loadPDF file s
  = emit (Toast "Error" "Failed to load PDF file. Please try another file."
            true)
      (emit (LogError "Error loading PDF:") s).
Proof. intros H. unfold loadPDF. by rewrite H. Qed.

Lemma act_in_range props a s :
  loads_a_page a → in_range s → in_range (act props a s).
Proof.
  intros Ha Hs. destruct a as [f|n| | |v|n t]; simpl in *.
  - destruct (parsed f) as [pdf|] eqn:Hf.
    + destruct (loadPDF_success f pdf s Hf) as (_ & Ht & Hc).
      unfold in_range. rewrite Ht, Hc. lia.
    + by rewrite loadPDF_failure.
  - by apply goToPage_in_range.
  - by apply goToPage_in_range.
  - by apply goToPage_in_range.
  - by apply goToPage_in_range.
  - unfold handlePageRendered. by destruct (onPageRender props).
Qed.

Lemma run_in_range props acts s :
  Forall loads_a_page acts → in_range s → in_range (run props acts s).
Proof.
  intros Hacts; revert s.
  induction Hacts as [|a acts Ha _ IH]; intros s Hs; simpl; [done|].
  by apply IH, act_in_range.
Qed.

(** C8.  [goToPage n] makes [n] the current page when [1 <= n <= totalPages]
    and changes nothing otherwise.  Once a document with at least one page
    is loaded the current page is 1, and it stays within [1, totalPages]
    whatever the user does next (every document loaded later having a page
    too); from a page in that range, previous and next move by one page and
    stop at the first and the last page. *)
Theorem current_page_in_range :
  (∀ n s,
     (1 ≤ n ≤ totalPages s →
      currentPage (goToPage n s) = n
      ∧ totalPages (goToPage n s) = totalPages s)
     ∧ (¬ (1 ≤ n ≤ totalPages s) → goToPage n s = s))
  ∧ (∀ props file pdf acts s,
       parsed file = Some pdf →
       1 ≤ PDFDocumentProxy.numPages pdf →
       Forall loads_a_page acts →
       currentPage (loadPDF file s) = 1
       ∧ in_range (run props acts (loadPDF file s)))
  ∧ (∀ s,
       in_range s →
       (1 < currentPage s →
        currentPage (handlePreviousPage s) = currentPage s - 1)
       ∧ (currentPage s = 1 → handlePreviousPage s = s)
       ∧ (currentPage s < totalPages s →
          currentPage (handleNextPage s) = currentPage s + 1)
       ∧ (currentPage s = totalPages s → handleNextPage s = s)).
Proof.
  split; [|split].
  - intros n s; split; intros H.
    + by rewrite goToPage_inside.
    + by apply goToPage_outside.
  - intros props file pdf acts s Hf Hn Hacts.
    destruct (loadPDF_success file pdf s Hf) as (_ & Ht & Hc).
    split; [exact Hc|].
    apply run_in_range; [exact Hacts|].
    unfold in_range. rewrite Ht, Hc. lia.
  - intros s [H1 H2]. unfold handlePreviousPage, handleNextPage.
    repeat split; intros H.
    + rewrite goToPage_inside by lia. reflexivity.
    + apply goToPage_outside. lia.
    + rewrite goToPage_inside by lia. reflexivity.
    + apply goToPage_outside. lia.
Qed.

Lemma current_page_in_range_witness :
  let file := mkFile "paper.pdf" (Some Sample.doc) in
  let acts :=
    [NextPage; NextPage; NextPage; GoToPage 7; PageInput (Some 0);
     PreviousPage; PreviousPage; LoadPDF (mkFile "broken.pdf" None);
     GoToPage 3] in
  parsed file = Some Sample.doc
  ∧ 1 ≤ PDFDocumentProxy.numPages Sample.doc
  ∧ Forall loads_a_page acts
  ∧ currentPage (loadPDF file initial) = 1
  ∧ in_range (run (mkProps None) acts (loadPDF file initial)).
Proof.
  intros file acts.
  assert (Hn : 1 ≤ PDFDocumentProxy.numPages Sample.doc) by (simpl; lia).
  assert (Hacts : Forall loads_a_page acts)
    by (repeat constructor).
  split; [reflexivity|]. split; [exact Hn|]. split; [exact Hacts|].
  exact (proj1 (proj2 current_page_in_range) (mkProps None) file Sample.doc
           acts initial eq_refl Hn Hacts).
Defined.

End Navigation.

(** ** Loading a document *)

Section Loading.

Import PDFViewer.

(** C9.  When loading fails, the document, the page count and the current
    page (and every other cell of the viewer) are as before, and the only
    thing that happens is the error report: one line on the console and one
    destructive toast.  When loading succeeds, the document is the loaded
    one, the page count is its number of pages and the current page is 1. *)
Theorem load_failure_keeps_document file s :
  (parsed file = None →
   pdfDocument (loadPDF file s) = pdfDocument s
   ∧ totalPages (loadPDF file s) = totalPages s
   ∧ currentPage (loadPDF file s) = currentPage s
   ∧ scale (loadPDF file s) = scale s
   ∧ activeTab (loadPDF file s) = activeTab s
   ∧ activeTool (loadPDF file s) = activeTool s
   ∧ highlightColor (loadPDF file s) = highlightColor s
   ∧ isAIOpen (loadPDF file s) = isAIOpen s
   ∧ pageTexts (loadPDF file s) = pageTexts s
   ∧ log (loadPDF file s)
     = log s ++ [LogError "Error loading PDF:";
                 Toast "Error"
                   "Failed to load PDF file. Please try another file." true])
  ∧ (∀ pdf,
       parsed file = Some pdf →
       pdfDocument (loadPDF file s) = Some pdf
       ∧ totalPages (loadPDF file s) = PDFDocumentProxy.numPages pdf
       ∧ currentPage (loadPDF file s) = 1).
Proof.
  split.
  - intros H. rewrite loadPDF_failure by done. simpl.
    repeat split. by rewrite <- app_assoc.
  - intros pdf H. by apply loadPDF_success.
Qed.

Lemma load_failure_keeps_document_witness :
  let file := mkFile "broken.pdf" None in
  let s := loadPDF (mkFile "paper.pdf" (Some Sample.doc)) initial in
  parsed file = None
  ∧ pdfDocument (loadPDF file s) = Some Sample.doc
  ∧ totalPages (loadPDF file s) = 3
  ∧ currentPage (loadPDF file s) = 1.
Proof.
  intros file s.
  split; [reflexivity|].
  destruct (proj1 (load_failure_keeps_document file s) eq_refl)
    as (Hd & Ht & Hc & _).
  rewrite Hd, Ht, Hc. by repeat split.
Defined.

End Loading.

(** ** Shapes *)

Section Shapes.

Import PDFPage.

Lemma run_app evs1 evs2 s : run (evs1 ++ evs2) s = run evs2 (run evs1 s).
Proof. unfold run. apply fold_left_app. Qed.

Lemma handleMouseMove_frame p e s :
  isDrawing (handleMouseMove p e s) = isDrawing s
  ∧ startPoint (handleMouseMove p e s) = startPoint s
  ∧ shapes (handleMouseMove p e s) = shapes s
  ∧ paths (handleMouseMove p e s) = paths s.
Proof. unfold handleMouseMove. by repeat case_match. Qed.

Lemma moves_frame ms s :
  isDrawing (run (moves ms) s) = isDrawing s
  ∧ startPoint (run (moves ms) s) = startPoint s
  ∧ shapes (run (moves ms) s) = shapes s
  ∧ paths (run (moves ms) s) = paths s.
Proof.
  revert s; induction ms as [|[p e] ms IH]; intros s; simpl; [done|].
  destruct (IH (handleMouseMove p e s)) as (-> & -> & -> & ->).
  apply handleMouseMove_frame.
Qed.

(** C10.  A drag with the shape tool from [(x0, y0)] (mouse down) to
    [(x1, y1)] (mouse up), with any pointer moves in between, appends one
    rectangle whose corner is [(min x0 x1, min y0 y1)] and whose size is
    [|x1 - x0|] by [|y1 - y0|]: width and height are not negative and the
    corner is the top-left one (neither of its coordinates exceeds that of
    either end of the drag), whatever the direction of the drag. *)
Theorem rectangle_is_normalised pd h e0 ms pu e1 s :
  activeTool pd = "shape" →
  activeTool pu = "shape" →
  let x0 := offsetX e0 in
  let y0 := offsetY e0 in
  let x1 := offsetX e1 in
  let y1 := offsetY e1 in
  let s' := run (MouseDown pd h e0 :: moves ms ++ [MouseUp pu e1]) s in
  ∃ sh,
    shapes s' = shapes s ++ [sh]
    ∧ Shape.type sh = "rectangle"
    ∧ Shape.x sh = Z.min x0 x1
    ∧ Shape.y sh = Z.min y0 y1
    ∧ Shape.width sh = Z.abs (x1 - x0)
    ∧ Shape.height sh = Z.abs (y1 - y0)
    ∧ Shape.color sh = highlightColor pu
    ∧ 0 ≤ Shape.width sh
    ∧ 0 ≤ Shape.height sh
    ∧ Shape.x sh ≤ x0
    ∧ Shape.x sh ≤ x1
    ∧ Shape.y sh ≤ y0
    ∧ Shape.y sh ≤ y1.
Proof.
  intros Hd Hu x0 y0 x1 y1 s'.
  set (s1 := handleMouseDown pd h e0 s).
  assert (Hs1 : isDrawing s1 = true ∧ startPoint s1 = Point.mk x0 y0
                ∧ shapes s1 = shapes s).
  { unfold s1, handleMouseDown. by rewrite Hd. }
  destruct Hs1 as (Hdraw & Hstart & Hshapes).
  assert (Hs' : s' = handleMouseUp pu e1 (run (moves ms) s1)).
  { unfold s'. change (MouseDown pd h e0 :: moves ms ++ [MouseUp pu e1])
      with ([MouseDown pd h e0] ++ moves ms ++ [MouseUp pu e1]).
    by rewrite !run_app. }
  destruct (moves_frame ms s1) as (Hdraw' & Hstart' & Hshapes' & _).
  rewrite Hdraw in Hdraw'. rewrite Hstart in Hstart'.
  rewrite Hshapes in Hshapes'.
  eexists. split.
  { rewrite Hs'. unfold handleMouseUp.
    rewrite Hu, Hdraw', Hstart', Hshapes'. simpl. reflexivity. }
  simpl. fold x1 y1. repeat split; lia.
Qed.

Lemma rectangle_is_normalised_witness :
  let p := Sample.props "shape" 1 (3 # 2) in
  let s' :=
    run (MouseDown p Sample.idle (Sample.at_ 60 80)
           :: moves [(p, Sample.at_ 50 90); (p, Sample.at_ 40 95)]
           ++ [MouseUp p (Sample.at_ 30 110)]) initial in
  activeTool p = "shape"
  ∧ ∃ sh,
      shapes s' = [sh]
      ∧ Shape.type sh = "rectangle"
      ∧ Shape.x sh = 20
      ∧ Shape.y sh = 60
      ∧ Shape.width sh = 30
      ∧ Shape.height sh = 30
      ∧ Shape.color sh = "#FEF7CD"
      ∧ 0 ≤ Shape.width sh
      ∧ 0 ≤ Shape.height sh
      ∧ Shape.x sh ≤ 50
      ∧ Shape.x sh ≤ 20
      ∧ Shape.y sh ≤ 60
      ∧ Shape.y sh ≤ 90.
Proof.
  intros p s'.
  split; [reflexivity|].
  exact (rectangle_is_normalised p Sample.idle (Sample.at_ 60 80)
           [(p, Sample.at_ 50 90); (p, Sample.at_ 40 95)] p
           (Sample.at_ 30 110) initial eq_refl eq_refl).
Defined.

End Shapes.

(** ** Pen strokes *)

Section Strokes.

Import PDFPage.

(** *** The path data determine the points *)

Lemma spaceless_app a b :
  spaceless (a +:+ b) = spaceless a && spaceless b.
Proof.
  induction a as [|ch a IH]; [done|].
  rewrite string_app_cons. simpl. by rewrite IH, andb_assoc.
Qed.

Lemma spaceless_digit n s :
  spaceless (String (pretty_N_char n) s) = spaceless s.
Proof. unfold pretty_N_char. by repeat case_match. Qed.

Lemma spaceless_pretty_N_go x s :
  spaceless (pretty_N_go x s) = spaceless s.
Proof.
  revert s. induction (N.lt_wf_0 x) as [x _ IH]; intros s.
  destruct (decide (x = 0)%N) as [->|Hx].
  - by rewrite pretty_N_go_0.
  - rewrite pretty_N_go_step by lia.
    rewrite IH by (apply N.div_lt; lia).
    apply spaceless_digit.
Qed.

Lemma spaceless_num z : spaceless (JS.num z) = true.
Proof.
  unfold JS.num, pretty, pretty_Z.
  assert (Hpos : ∀ x : positive, spaceless (pretty x) = true).
  { intros x. unfold pretty, pretty_positive, pretty, pretty_N.
    case_decide; [done|]. by rewrite spaceless_pretty_N_go. }
  destruct z as [|x|x]; [done|apply Hpos|].
  rewrite spaceless_app, Hpos. done.
Qed.

(** Two strings that agree, each cut at its first space, agree on both
    sides of the cut. *)
Lemma cut_at_space a b r r' :
  spaceless a = true → spaceless b = true →
  a +:+ " " +:+ r = b +:+ " " +:+ r' → a = b ∧ r = r'.
Proof.
  revert b; induction a as [|ch a IH]; intros [|ch' b] Ha Hb Heq.
  - by simplify_eq.
  - rewrite string_app_cons in Heq. simpl in Hb.
    injection Heq as <- _. done.
  - rewrite string_app_cons in Heq. simpl in Ha.
    injection Heq as -> _. done.
  - rewrite !string_app_cons in Heq. injection Heq as -> Heq.
    simpl in Ha, Hb.
    apply andb_true_iff in Ha as [_ Ha]. apply andb_true_iff in Hb as [_ Hb].
    destruct (IH b Ha Hb Heq) as [-> ->]. done.
Qed.

Lemma line_to_cons q qs :
  line_to (q :: qs)
  = " " +:+ "L " +:+ JS.num (Point.x q) +:+ " " +:+ JS.num (Point.y q)
      +:+ line_to qs.
Proof. reflexivity. Qed.

Lemma line_to_inj y y' ps qs :
  JS.num y +:+ line_to ps = JS.num y' +:+ line_to qs → y = y' ∧ ps = qs.
Proof.
  revert y y' qs; induction ps as [|p ps IH]; intros y y' [|q qs] Heq.
  - simpl in Heq. rewrite !string_app_nil_r in Heq.
    by apply (inj pretty) in Heq.
  - exfalso. simpl line_to at 1 in Heq. rewrite string_app_nil_r in Heq.
    pose proof (spaceless_num y) as Hy. rewrite Heq, line_to_cons in Hy.
    rewrite !spaceless_app in Hy. simpl in Hy.
    by rewrite andb_false_r in Hy.
  - exfalso. simpl line_to at 2 in Heq. rewrite string_app_nil_r in Heq.
    pose proof (spaceless_num y') as Hy. rewrite <- Heq, line_to_cons in Hy.
    rewrite !spaceless_app in Hy. simpl in Hy.
    by rewrite andb_false_r in Hy.
  - rewrite !line_to_cons in Heq.
    apply cut_at_space in Heq as [Hy Heq]; [|apply spaceless_num..].
    apply (inj pretty) in Hy as ->.
    apply (inj (String.append "L ")) in Heq.
    apply cut_at_space in Heq as [Hx Heq]; [|apply spaceless_num..].
    apply (inj pretty) in Hx.
    apply IH in Heq as [Hy ->].
    split; [done|]. f_equal. destruct p, q; simpl in *; congruence.
Qed.

Lemma svg_path_inj p ps q qs :
  svg_path p ps = svg_path q qs → p = q ∧ ps = qs.
Proof.
  unfold svg_path. intros Heq.
  apply (inj (String.append "M ")) in Heq.
  apply cut_at_space in Heq as [Hx Heq]; [|apply spaceless_num..].
  apply (inj pretty) in Hx.
  apply line_to_inj in Heq as [Hy ->].
  split; [|done]. destruct p, q; simpl in *; congruence.
Qed.

(** *** A stroke from mouse down to mouse up *)

Lemma handleMouseMove_pen p e s :
  activeTool p = "pen" → isDrawing s = true →
  handleMouseMove p e s
  = setCurrentPath (currentPath s +:+ line_to [position e]) s.
Proof.
  intros Hp Hd. unfold handleMouseMove. rewrite Hp, Hd. simpl.
  by rewrite string_app_nil_r.
Qed.

Lemma line_to_app ps qs : line_to (ps ++ qs) = line_to ps +:+ line_to qs.
Proof.
  induction ps as [|p ps IH]; [done|].
  rewrite <- app_comm_cons, !line_to_cons, IH.
  by rewrite !string_app_assoc.
Qed.

Lemma moves_pen ms s :
  Forall (λ m, activeTool m.1 = "pen") ms → isDrawing s = true →
  currentPath (run (moves ms) s)
  = currentPath s +:+ line_to (map (λ m, position m.2) ms).
Proof.
  intros Hms; revert s.
  induction Hms as [|[p e] ms Hp _ IH]; intros s Hd; simpl.
  - by rewrite string_app_nil_r.
  - rewrite IH, handleMouseMove_pen by (by rewrite ?handleMouseMove_pen).
    simpl currentPath.
    rewrite string_app_assoc. f_equal.
    symmetry. apply (line_to_app [position e]).
Qed.

(** C7.  A pen stroke (mouse down, pointer moves, mouse up, the pen being
    the active tool throughout) appends one path whose data are a move to
    the mouse-down position followed by a line to each pointer position in
    arrival order, with the colour selected at mouse up.  The data are
    those of no other sequence of points. *)
Theorem pen_stroke_records_points pd h e0 ms pu e1 s :
  activeTool pd = "pen" →
  Forall (λ m, activeTool m.1 = "pen") ms →
  activeTool pu = "pen" →
  let s' := run (MouseDown pd h e0 :: moves ms ++ [MouseUp pu e1]) s in
  let pts := map (λ m, position m.2) ms in
  paths s'
  = paths s
    ++ [PathData.mk (svg_path (position e0) pts) (highlightColor pu) "pen"]
  ∧ (∀ q qs,
       svg_path q qs = svg_path (position e0) pts →
       q = position e0 ∧ qs = pts).
Proof.
  intros Hd Hms Hu s' pts.
  split; [|intros q qs; apply svg_path_inj].
  set (s1 := handleMouseDown pd h e0 s).
  assert (Hs1 : isDrawing s1 = true
                ∧ currentPath s1 = svg_path (position e0) []
                ∧ paths s1 = paths s).
  { unfold s1, handleMouseDown. rewrite Hd. simpl.
    unfold svg_path. simpl. by rewrite string_app_nil_r. }
  destruct Hs1 as (Hdraw & Hpath & Hpaths).
  assert (Hs' : s' = handleMouseUp pu e1 (run (moves ms) s1)).
  { unfold s'. change (MouseDown pd h e0 :: moves ms ++ [MouseUp pu e1])
      with ([MouseDown pd h e0] ++ moves ms ++ [MouseUp pu e1]).
    by rewrite !run_app. }
  destruct (moves_frame ms s1) as (Hdraw' & _ & _ & Hpaths').
  rewrite Hs'. unfold handleMouseUp.
  rewrite Hu, Hdraw', Hdraw, Hpaths', Hpaths. simpl.
  rewrite (moves_pen ms s1 Hms Hdraw), Hpath.
  unfold svg_path. simpl line_to at 1.
  rewrite !string_app_assoc. reflexivity.
Qed.

Lemma pen_stroke_records_points_witness :
  let p := Sample.props "pen" 1 (3 # 2) in
  let ms := [(p, Sample.at_ 16 20); (p, Sample.at_ 5 19)] in
  let s' :=
    run (MouseDown p Sample.idle (Sample.at_ 15 25)
           :: moves ms ++ [MouseUp p (Sample.at_ 100 100)]) initial in
  activeTool p = "pen"
  ∧ Forall (λ m, activeTool m.1 = "pen") ms
  ∧ paths s' = [PathData.mk "M 5 5 L 6 0 L -5 -1" "#FEF7CD" "pen"].
Proof.
  intros p ms s'.
  assert (Hms : Forall (λ m, activeTool m.1 = "pen") ms)
    by (repeat constructor).
  split; [reflexivity|]. split; [exact Hms|].
  exact (proj1 (pen_stroke_records_points p Sample.idle (Sample.at_ 15 25)
                  ms p (Sample.at_ 100 100) initial eq_refl Hms eq_refl)).
Defined.

End Strokes.

(** ** The overlay at rest *)

Section Idle.

Import PDFPage.

Lemma pointerEvents_none p :
  pointerEvents p = "none" → JS.truthy (activeTool p) = false.
Proof. unfold pointerEvents. by destruct (JS.truthy _). Qed.

Lemma handleMouseMove_idle p e s :
  isDrawing s = false → handleMouseMove p e s = s.
Proof. intros H. unfold handleMouseMove. by rewrite H. Qed.

Lemma handleMouseUp_idle p e s :
  isDrawing s = false → handleMouseUp p e s = s.
Proof.
  intros H. unfold handleMouseUp. rewrite H. by rewrite orb_true_r.
Qed.

(** X1.  While no tool is active (the handler layer then has
    [pointer-events: none]) the three mouse handlers return the state they
    got; while no drag is in progress, so do mouse move and mouse up under
    any tool. *)
Theorem pointer_ignored_when_idle p h e s :
  (pointerEvents p = "none" →
   handleMouseDown p h e s = s
   ∧ handleMouseMove p e s = s
   ∧ handleMouseUp p e s = s)
  ∧ (isDrawing s = false →
     handleMouseMove p e s = s ∧ handleMouseUp p e s = s).
Proof.
  split.
  - intros H%pointerEvents_none.
    unfold handleMouseDown, handleMouseMove, handleMouseUp. rewrite H. simpl.
    by rewrite orb_true_r.
  - intros H. split; [by apply handleMouseMove_idle|by apply handleMouseUp_idle].
Qed.

Lemma pointer_ignored_when_idle_witness :
  let p := Sample.props "" 1 (3 # 2) in
  pointerEvents p = "none"
  ∧ handleMouseDown p Sample.idle (Sample.at_ 30 40) Sample.annotated
    = Sample.annotated
  ∧ handleMouseMove p (Sample.at_ 30 40) Sample.annotated = Sample.annotated
  ∧ handleMouseUp p (Sample.at_ 30 40) Sample.annotated = Sample.annotated.
Proof.
  intros p. split; [reflexivity|].
  exact (proj1 (pointer_ignored_when_idle p Sample.idle (Sample.at_ 30 40)
                  Sample.annotated) eq_refl).
Defined.

Lemma handleMouseUp_isDrawing p e s :
  JS.truthy (activeTool p) = true → isDrawing (handleMouseUp p e s) = false.
Proof.
  intros H. unfold handleMouseUp. rewrite H. simpl.
  by destruct (isDrawing s) eqn:Hd.
Qed.

Lemma idle_run evs s :
  Forall no_mouse_down evs → isDrawing s = false → run evs s = s.
Proof.
  intros Hevs; revert s.
  induction Hevs as [|ev evs Hev _ IH]; intros s Hs; simpl; [done|].
  destruct ev as [| p e | p e |]; simpl in Hev; try done; simpl.
  - rewrite handleMouseMove_idle by done. by apply IH.
  - rewrite handleMouseUp_idle by done. by apply IH.
Qed.

(** X2.  A mouse up under an active tool ends the drag: the drawing flag is
    off, and no sequence of pointer moves and mouse ups changes anything
    until the next mouse down. *)
Theorem drag_ends_at_mouse_up p e evs s :
  JS.truthy (activeTool p) = true →
  Forall no_mouse_down evs →
  isDrawing (handleMouseUp p e s) = false
  ∧ run evs (handleMouseUp p e s) = handleMouseUp p e s.
Proof.
  intros Hp Hevs.
  pose proof (handleMouseUp_isDrawing p e s Hp) as Hd.
  split; [exact Hd|by apply idle_run].
Qed.

Lemma drag_ends_at_mouse_up_witness :
  let p := Sample.props "pen" 1 (3 # 2) in
  let s := run (MouseDown p Sample.idle (Sample.at_ 15 25)
                  :: moves [(p, Sample.at_ 16 20)]) initial in
  let evs := [MouseMove p (Sample.at_ 50 50); MouseUp p (Sample.at_ 60 60);
              MouseMove p (Sample.at_ 70 70)] in
  JS.truthy (activeTool p) = true
  ∧ Forall no_mouse_down evs
  ∧ isDrawing (handleMouseUp p (Sample.at_ 20 20) s) = false
  ∧ run evs (handleMouseUp p (Sample.at_ 20 20) s)
    = handleMouseUp p (Sample.at_ 20 20) s.
Proof.
  intros p s evs.
  assert (Hevs : Forall no_mouse_down evs) by (repeat constructor).
  split; [reflexivity|]. split; [exact Hevs|].
  exact (drag_ends_at_mouse_up p (Sample.at_ 20 20) evs s eq_refl Hevs).
Defined.

End Idle.

(** ** The text, speech and highlight tools *)

Section Tools.

Import PDFPage.

(** X3.  With the text tool, a mouse down asks for a text.  A non-empty
    answer appends one note at the pointer position inside the overlay and
    changes nothing else; a cancelled prompt or an empty answer leaves the
    state as it is. *)
Theorem text_tool_places_note p h e s :
  activeTool p = "text" →
  (∀ text,
     promptResult h = Some text → text ≠ "" →
     handleMouseDown p h e s
     = setTextAnnotations
         (textAnnotations s
          ++ [TextAnnotation.mk
                (MouseEvent.clientX e - DOMRect.left (MouseEvent.targetRect e))
                (MouseEvent.clientY e - DOMRect.top (MouseEvent.targetRect e))
                text]) s)
  ∧ (promptResult h = None ∨ promptResult h = Some "" →
     handleMouseDown p h e s = s).
Proof.
  intros Hp. unfold handleMouseDown. rewrite Hp. simpl. split.
  - intros text -> Hne. by destruct text.
  - by intros [-> | ->].
Qed.

Lemma text_tool_places_note_witness :
  let p := Sample.props "text" 1 (3 # 2) in
  let h := mkHost None (Some "check this") Sample.overlay in
  activeTool p = "text"
  ∧ handleMouseDown p h (Sample.at_ 110 220) initial
    = setTextAnnotations [TextAnnotation.mk 100 200 "check this"] initial.
Proof.
  intros p h. split; [reflexivity|].
  exact (proj1 (text_tool_places_note p h (Sample.at_ 110 220) initial eq_refl)
           "check this" eq_refl ltac:(discriminate)).
Defined.

(** X4.  With the speech tool, a mouse down over a non-collapsed selection
    with some text cancels the current speech and speaks the selected text
    in [en-US], leaving every state cell as it was; without a selection,
    with a collapsed or empty one, or without a synthesiser, nothing
    happens. *)
Theorem tts_speaks_selection p h e s :
  activeTool p = "tts" →
  (∀ sel,
     selection h = Some sel →
     Selection.isCollapsed sel = false →
     speechSynthesisRef s = true →
     Selection.toString sel ≠ "" →
     handleMouseDown p h e s
     = emit (SpeechSpeak (Selection.toString sel) "en-US")
         (emit SpeechCancel s))
  ∧ (selection h = None
     ∨ speechSynthesisRef s = false
     ∨ (∃ sel, selection h = Some sel
               ∧ (Selection.isCollapsed sel = true
                  ∨ Selection.toString sel = "")) →
     handleMouseDown p h e s = s).
Proof.
  intros Hp. unfold handleMouseDown. rewrite Hp. simpl. split.
  - intros sel -> -> -> Hne. simpl. by destruct (Selection.toString sel).
  - intros [-> | [Hs | (sel & -> & [Hc | Ht])]]; [done| | |].
    + rewrite Hs. destruct (selection h); [|done]. by rewrite andb_false_r.
    + by rewrite Hc.
    + rewrite Ht. by destruct (_ && _).
Qed.

Lemma tts_speaks_selection_witness :
  let p := Sample.props "tts" 1 (3 # 2) in
  let sel := Selection.mk false [DOMRect.mk 110 220 80 14] "read me" in
  let h := mkHost (Some sel) None Sample.overlay in
  activeTool p = "tts"
  ∧ log (handleMouseDown p h (Sample.at_ 120 225) Sample.annotated)
    = [SpeechCancel; SpeechSpeak "read me" "en-US"]
  ∧ same_annotations Sample.annotated
      (handleMouseDown p h (Sample.at_ 120 225) Sample.annotated).
Proof.
  intros p sel h. split; [reflexivity|].
  rewrite (proj1 (tts_speaks_selection p h (Sample.at_ 120 225)
                    Sample.annotated eq_refl)
             sel eq_refl eq_refl eq_refl ltac:(discriminate)).
  by repeat split.
Defined.

(** X5.  With the highlight tool, a mouse down without a selection or over
    a collapsed one changes nothing and leaves the selection alone.
    Otherwise the selection is cleared, whether or not it had a rectangle,
    and its text is remembered when a highlight was made. *)
Theorem highlight_clears_selection p h e s :
  activeTool p = "highlight" →
  (selection h = None
   ∨ (∃ sel, selection h = Some sel ∧ Selection.isCollapsed sel = true) →
   handleMouseDown p h e s = s)
  ∧ (∀ sel,
       selection h = Some sel →
       Selection.isCollapsed sel = false →
       is_Some (textLayerRef s) →
       let s' := handleMouseDown p h e s in
       log s' = log s ++ [RemoveAllRanges]
       ∧ (Selection.clientRects sel ≠ [] →
          selectedText s' = Selection.toString sel)
       ∧ (Selection.clientRects sel = [] → selectedText s' = selectedText s)
       ∧ isDrawing s' = isDrawing s
       ∧ currentPath s' = currentPath s).
Proof.
  intros Hp. unfold handleMouseDown. rewrite Hp. simpl. split.
  - intros [-> | (sel & -> & ->)]; done.
  - intros sel -> -> [layer Hl]. simpl. unfold handleTextSelection.
    rewrite Hl. destruct (Selection.clientRects sel); simpl; by repeat split.
Qed.

Lemma highlight_clears_selection_witness :
  let p := Sample.props "highlight" 1 (3 # 2) in
  let sel := Selection.mk false [DOMRect.mk 110 220 80 14] "marked" in
  let h := mkHost (Some sel) None Sample.overlay in
  let s' := handleMouseDown p h (Sample.at_ 120 225) initial in
  activeTool p = "highlight"
  ∧ log s' = [RemoveAllRanges]
  ∧ selectedText s' = "marked".
Proof.
  intros p sel h s'. split; [reflexivity|].
  destruct (proj2 (highlight_clears_selection p h (Sample.at_ 120 225)
                     initial eq_refl)
              sel eq_refl eq_refl ltac:(by eexists)) as (Hlog & Htext & _).
  split; [exact Hlog|]. apply Htext. discriminate.
Defined.

End Tools.

(** ** More on drags *)

Section Drags.

Import PDFPage.

Lemma shape_drag pd h e0 ms pu e1 s :
  activeTool pd = "shape" →
  activeTool pu = "shape" →
  shapes (run (MouseDown pd h e0 :: moves ms ++ [MouseUp pu e1]) s)
  = shapes s
    ++ [Shape.mk "rectangle"
          (Z.min (offsetX e1) (offsetX e0)) (Z.min (offsetY e1) (offsetY e0))
          (Z.abs (offsetX e1 - offsetX e0)) (Z.abs (offsetY e1 - offsetY e0))
          (highlightColor pu)].
Proof.
  intros Hd Hu.
  change (MouseDown pd h e0 :: moves ms ++ [MouseUp pu e1])
    with ([MouseDown pd h e0] ++ moves ms ++ [MouseUp pu e1]).
  rewrite !run_app. simpl.
  set (s1 := handleMouseDown pd h e0 s).
  assert (Hs1 : isDrawing s1 = true
                ∧ startPoint s1 = Point.mk (offsetX e0) (offsetY e0)
                ∧ shapes s1 = shapes s).
  { unfold s1, handleMouseDown. by rewrite Hd. }
  destruct Hs1 as (Hdraw & Hstart & Hshapes).
  destruct (moves_frame ms s1) as (Hdraw' & Hstart' & Hshapes' & _).
  unfold handleMouseUp.
  rewrite Hu, Hdraw', Hdraw, Hstart', Hstart, Hshapes', Hshapes.
  reflexivity.
Qed.

(** X6.  The rectangle of a drag does not depend on its direction: dragging
    from one point to another stores the same rectangle as dragging back
    from the second to the first. *)
Theorem drag_direction_irrelevant p h h' a b ms ms' s :
  activeTool p = "shape" →
  shapes (run (MouseDown p h a :: moves ms ++ [MouseUp p b]) s)
  = shapes (run (MouseDown p h' b :: moves ms' ++ [MouseUp p a]) s).
Proof.
  intros Hp. rewrite !shape_drag by done.
  do 2 f_equal. f_equal; lia.
Qed.

Lemma drag_direction_irrelevant_witness :
  let p := Sample.props "shape" 1 (3 # 2) in
  activeTool p = "shape"
  ∧ shapes (run (MouseDown p Sample.idle (Sample.at_ 60 80)
                   :: moves [] ++ [MouseUp p (Sample.at_ 30 110)]) initial)
    = shapes (run (MouseDown p Sample.idle (Sample.at_ 30 110)
                     :: moves [(p, Sample.at_ 40 100)]
                     ++ [MouseUp p (Sample.at_ 60 80)]) initial).
Proof.
  intros p. split; [reflexivity|].
  exact (drag_direction_irrelevant p Sample.idle Sample.idle (Sample.at_ 60 80)
           (Sample.at_ 30 110) [] [(p, Sample.at_ 40 100)] initial eq_refl).
Defined.

(** X7.  There is no minimum size: a mouse down and a mouse up at the same
    position with the shape tool store a rectangle of width and height 0 at
    that position. *)
Theorem click_stores_empty_rectangle p h e e' s :
  activeTool p = "shape" →
  offsetX e' = offsetX e →
  offsetY e' = offsetY e →
  shapes (run [MouseDown p h e; MouseUp p e'] s)
  = shapes s
    ++ [Shape.mk "rectangle" (offsetX e) (offsetY e) 0 0 (highlightColor p)].
Proof.
  intros Hp Hx Hy.
  change (run [MouseDown p h e; MouseUp p e'] s)
    with (run (MouseDown p h e :: moves [] ++ [MouseUp p e']) s).
  rewrite (shape_drag p h e [] p e' s Hp Hp), Hx, Hy.
  do 2 f_equal. f_equal; lia.
Qed.

Lemma click_stores_empty_rectangle_witness :
  let p := Sample.props "shape" 1 (3 # 2) in
  activeTool p = "shape"
  ∧ shapes (run [MouseDown p Sample.idle (Sample.at_ 60 80);
                 MouseUp p (Sample.at_ 60 80)] initial)
    = [Shape.mk "rectangle" 50 60 0 0 "#FEF7CD"].
Proof.
  intros p. split; [reflexivity|].
  exact (click_stores_empty_rectangle p Sample.idle (Sample.at_ 60 80)
           (Sample.at_ 60 80) initial eq_refl eq_refl eq_refl).
Defined.

Lemma renderPage_sync_stroke p s :
  isDrawing (renderPage_sync p s) = isDrawing s
  ∧ startPoint (renderPage_sync p s) = startPoint s
  ∧ currentPath (renderPage_sync p s) = currentPath s.
Proof. unfold renderPage_sync. by destruct (renderPage_ready p s). Qed.

Lemma renderPage_async_stroke p r s :
  isDrawing (renderPage_async p r s) = isDrawing s
  ∧ startPoint (renderPage_async p r s) = startPoint s
  ∧ currentPath (renderPage_async p r s) = currentPath s.
Proof.
  unfold renderPage_async. repeat (case_match; simpl); by repeat split.
Qed.

Lemma cancelSpeech_frame s :
  isDrawing (cancelSpeech s) = isDrawing s
  ∧ startPoint (cancelSpeech s) = startPoint s
  ∧ currentPath (cancelSpeech s) = currentPath s
  ∧ same_annotations s (cancelSpeech s)
  ∧ canvasRef (cancelSpeech s) = canvasRef s
  ∧ textLayerRef (cancelSpeech s) = textLayerRef s.
Proof.
  unfold cancelSpeech. destruct (speechSynthesisRef s); by repeat split.
Qed.

Lemma tool_cleanup_frame old new s :
  isDrawing (tool_cleanup old new s) = isDrawing s
  ∧ startPoint (tool_cleanup old new s) = startPoint s
  ∧ currentPath (tool_cleanup old new s) = currentPath s
  ∧ same_annotations s (tool_cleanup old new s)
  ∧ canvasRef (tool_cleanup old new s) = canvasRef s
  ∧ textLayerRef (tool_cleanup old new s) = textLayerRef s.
Proof.
  unfold tool_cleanup. destruct (_ =? _)%string; [by repeat split|].
  apply cancelSpeech_frame.
Qed.

Lemma handle_refs ev s :
  canvasRef (handle ev s) = canvasRef s
  ∧ textLayerRef (handle ev s) = textLayerRef s.
Proof.
  destruct ev as [p h e|p e|p e|p h sel]; simpl.
  - unfold handleMouseDown, handleTextSelection.
    repeat (case_match; simpl); by repeat split.
  - unfold handleMouseMove. by repeat case_match.
  - unfold handleMouseUp. by repeat (case_match; simpl).
  - unfold handleTextSelection. repeat (case_match; simpl); by repeat split.
Qed.

Lemma run_refs evs s :
  canvasRef (run evs s) = canvasRef s
  ∧ textLayerRef (run evs s) = textLayerRef s.
Proof.
  revert s; induction evs as [|ev evs IH]; intros s; simpl; [done|].
  destruct (IH (handle ev s)) as (-> & ->). apply handle_refs.
Qed.

(** X8.  A page render does not end a drag: [renderPage] resets the four
    lists and leaves the drawing flag, the start point and the stroke in
    progress alone.  A pen stroke begun before the page, the document or the
    scale changed and finished afterwards is therefore the one path of the
    newly rendered page, with the points drawn over the previous one. *)
Theorem stroke_survives_render pd h e0 ms old new r pu e1 s :
  activeTool pd = "pen" →
  Forall (λ m, activeTool m.1 = "pen") ms →
  activeTool pu = "pen" →
  renderPage_ready new s = true →
  page_changed old new →
  let drawn := run (MouseDown pd h e0 :: moves ms) s in
  let rendered := renderPage_async new r (update old new drawn) in
  isDrawing rendered = true
  ∧ currentPath rendered
    = svg_path (position e0) (map (λ m, position m.2) ms)
  ∧ paths (handleMouseUp pu e1 rendered)
    = [PathData.mk (svg_path (position e0) (map (λ m, position m.2) ms))
         (highlightColor pu) "pen"].
Proof.
  intros Hd Hms Hu Hready Hch drawn rendered.
  set (s1 := handleMouseDown pd h e0 s).
  assert (Hs1 : isDrawing s1 = true
                ∧ currentPath s1 = svg_path (position e0) []).
  { unfold s1, handleMouseDown. rewrite Hd. simpl.
    unfold svg_path. simpl. by rewrite string_app_nil_r. }
  destruct Hs1 as (Hdraw1 & Hpath1).
  assert (Hdrawn : isDrawing drawn = true
                   ∧ currentPath drawn
                     = svg_path (position e0) (map (λ m, position m.2) ms)).
  { unfold drawn. change (run (MouseDown pd h e0 :: moves ms) s)
      with (run (moves ms) s1).
    destruct (moves_frame ms s1) as (-> & _). split; [done|].
    rewrite (moves_pen ms s1 Hms Hdraw1), Hpath1.
    unfold svg_path. simpl line_to at 1.
    rewrite !string_app_assoc. reflexivity. }
  destruct Hdrawn as (Hdraw & Hpath).
  set (cleaned := tool_cleanup old new drawn).
  destruct (tool_cleanup_frame old new drawn)
    as (Hc1 & _ & Hc3 & _ & Hc5 & Hc6).
  fold cleaned in Hc1, Hc3, Hc5, Hc6.
  assert (Hready' : renderPage_ready new cleaned = true).
  { unfold renderPage_ready in *. rewrite Hc5, Hc6.
    destruct (run_refs (MouseDown pd h e0 :: moves ms) s) as (Hr1 & Hr2).
    fold drawn in Hr1, Hr2. by rewrite Hr1, Hr2. }
  assert (Hsync : no_annotations (rerender old new cleaned)).
  { unfold rerender. rewrite (page_changed_deps _ _ Hch).
    by apply renderPage_sync_ready. }
  assert (Hstroke : isDrawing (rerender old new cleaned) = true
                    ∧ currentPath (rerender old new cleaned)
                      = currentPath drawn).
  { unfold rerender. rewrite (page_changed_deps _ _ Hch).
    destruct (renderPage_sync_stroke new cleaned) as (-> & _ & ->).
    by rewrite Hc1, Hc3. }
  destruct Hstroke as (Hr1 & Hr3).
  assert (Hrendered : isDrawing rendered = true
                      ∧ currentPath rendered = currentPath drawn
                      ∧ paths rendered = []).
  { unfold rendered, update. fold cleaned.
    destruct (renderPage_async_stroke new r (rerender old new cleaned))
      as (-> & _ & ->).
    destruct (renderPage_async_same new r (rerender old new cleaned))
      as (_ & -> & _).
    destruct Hsync as (_ & -> & _). done. }
  destruct Hrendered as (Hf1 & Hf2 & Hf3).
  split; [exact Hf1|]. split; [by rewrite Hf2|].
  unfold handleMouseUp. rewrite Hu, Hf1, Hf2, Hf3, Hpath. reflexivity.
Qed.

Lemma stroke_survives_render_witness :
  let p := Sample.props "pen" 1 (3 # 2) in
  let p' := Sample.props "pen" 2 (3 # 2) in
  let ms := [(p, Sample.at_ 16 20); (p, Sample.at_ 5 19)] in
  let drawn := run (MouseDown p Sample.idle (Sample.at_ 15 25) :: moves ms)
                 Sample.annotated in
  let rendered :=
    renderPage_async p' (Rendered (Viewport.mk 918 1188) [TextItem "Two"])
      (update p p' drawn) in
  activeTool p = "pen"
  ∧ Forall (λ m, activeTool m.1 = "pen") ms
  ∧ renderPage_ready p' Sample.annotated = true
  ∧ page_changed p p'
  ∧ paths (handleMouseUp p' (Sample.at_ 0 0) rendered)
    = [PathData.mk "M 5 5 L 6 0 L -5 -1" "#FEF7CD" "pen"].
Proof.
  intros p p' ms drawn rendered.
  assert (Hms : Forall (λ m, activeTool m.1 = "pen") ms)
    by (repeat constructor).
  assert (Hch : page_changed p p') by (right; left; simpl; lia).
  split; [reflexivity|]. split; [exact Hms|]. split; [reflexivity|].
  split; [exact Hch|].
  exact (proj2 (proj2 (stroke_survives_render p Sample.idle (Sample.at_ 15 25)
                         ms p p' (Rendered (Viewport.mk 918 1188)
                                    [TextItem "Two"])
                         p' (Sample.at_ 0 0) Sample.annotated
                         eq_refl Hms eq_refl eq_refl Hch))).
Defined.

End Drags.

(** ** What the stored entities look like *)

Section WellFormed.

Import PDFPage.

Lemma well_formed_same s s' :
  same_annotations s s' → well_formed s → well_formed s'.
Proof.
  intros (Hh & Hp & Ht & Hs) (?&?&?&?).
  unfold well_formed. by rewrite Hh, Hp, Ht, Hs.
Qed.

Lemma well_formed_none s : no_annotations s → well_formed s.
Proof.
  intros (Hh & Hp & Ht & Hs). unfold well_formed.
  rewrite Hh, Hp, Ht, Hs. by repeat split.
Qed.

Lemma handleTextSelection_well_formed p h sel s :
  well_formed s → well_formed (handleTextSelection p h sel s).
Proof.
  intros Hwf. pose proof Hwf as (Hh & Hp & Ht & Hs).
  unfold handleTextSelection.
  destruct (textLayerRef s); [|done].
  destruct (Selection.clientRects sel) as [|r rs] eqn:Hr; simpl; [done|].
  repeat split; try done.
  apply Forall_app; split; [done|]. by repeat constructor.
Qed.

Lemma handleMouseDown_well_formed p h e s :
  well_formed s → well_formed (handleMouseDown p h e s).
Proof.
  intros Hwf. pose proof Hwf as (Hh & Hp & Ht & Hs).
  unfold handleMouseDown.
  repeat (case_match; try done;
          try (by apply handleTextSelection_well_formed)).
  repeat split; try done.
  apply Forall_app; split; [done|]. repeat constructor. simpl.
  subst. by intros ->.
Qed.

Lemma handleMouseMove_well_formed p e s :
  well_formed s → well_formed (handleMouseMove p e s).
Proof. intros Hwf. unfold handleMouseMove. by repeat case_match. Qed.

Lemma handleMouseUp_well_formed p e s :
  well_formed s → well_formed (handleMouseUp p e s).
Proof.
  intros Hwf. pose proof Hwf as (Hh & Hp & Ht & Hs).
  unfold handleMouseUp.
  destruct (_ || _); [done|].
  destruct (activeTool p =? "pen")%string.
  { repeat split; try done.
    apply Forall_app; split; [done|]. by repeat constructor. }
  destruct (activeTool p =? "shape")%string; [|done].
  repeat split; try done.
  apply Forall_app; split; [done|].
  repeat constructor; simpl; lia.
Qed.

Lemma handle_well_formed ev s : well_formed s → well_formed (handle ev s).
Proof.
  destruct ev; simpl;
    auto using handleMouseDown_well_formed, handleMouseMove_well_formed,
               handleMouseUp_well_formed, handleTextSelection_well_formed.
Qed.

Lemma update_well_formed old new s :
  well_formed s → well_formed (update old new s).
Proof.
  intros Hwf. unfold update, rerender, renderPage_sync.
  destruct (tool_cleanup_frame old new s) as (_ & _ & _ & Hsame & _).
  pose proof (well_formed_same _ _ Hsame Hwf) as Hwf'.
  destruct (deps_changed old new); [|done].
  destruct (renderPage_ready new _); [|done].
  apply well_formed_none. by repeat split.
Qed.

Lemma transition_well_formed s s' :
  transition s s' → well_formed s → well_formed s'.
Proof.
  intros [ev s0|old new s0|p r s0] Hwf.
  - by apply handle_well_formed.
  - by apply update_well_formed.
  - eapply well_formed_same; [apply renderPage_async_same|done].
Qed.

(** X9.  In every state the overlay can reach from its mount (by pointer
    events, re-renders with new props and completed page renders), each
    highlight has at least one rectangle, each path is of type ['pen'], each
    note has a non-empty text, and each shape is a ['rectangle'] whose width
    and height are not negative. *)
Theorem reachable_well_formed s : reachable s → well_formed s.
Proof.
  unfold reachable. intros Hreach.
  assert (Hinit : well_formed initial) by (by repeat split).
  induction Hreach as [s|s1 s2 s3 Hstep _ IH]; [done|].
  apply IH. by eapply transition_well_formed.
Qed.

Lemma reachable_well_formed_witness :
  let p := Sample.props "shape" 1 (3 # 2) in
  let s := handle (MouseUp p (Sample.at_ 30 110))
             (handle (MouseDown p Sample.idle (Sample.at_ 60 80)) initial) in
  reachable s ∧ well_formed s.
Proof.
  intros p s.
  assert (Hreach : reachable s).
  { unfold reachable, s.
    eapply rtc_l; [apply t_event|]. eapply rtc_l; [apply t_event|].
    apply rtc_refl. }
  split; [exact Hreach|exact (reachable_well_formed s Hreach)].
Defined.

(** X10.  The overlay draws every shape it stores: in a reachable state no
    shape falls into the [null] branch of the shape list. *)
Theorem every_shape_is_drawn s : reachable s → drawn_shapes s = shapes s.
Proof.
  intros (_ & _ & _ & Hs)%reachable_well_formed.
  unfold drawn_shapes. induction Hs as [|sh l (Ht & _) _ IH]; [done|].
  simpl. rewrite Ht. simpl. by rewrite IH.
Qed.

Lemma every_shape_is_drawn_witness :
  let p := Sample.props "shape" 1 (3 # 2) in
  let s := handle (MouseUp p (Sample.at_ 30 110))
             (handle (MouseDown p Sample.idle (Sample.at_ 60 80)) initial) in
  reachable s
  ∧ drawn_shapes s = [Shape.mk "rectangle" 20 60 30 30 "#FEF7CD"].
Proof.
  intros p s.
  assert (Hreach : reachable s).
  { unfold reachable, s.
    eapply rtc_l; [apply t_event|]. eapply rtc_l; [apply t_event|].
    apply rtc_refl. }
  split; [exact Hreach|exact (every_shape_is_drawn s Hreach)].
Defined.

End WellFormed.

(** ** Runs of [renderPage] *)

Section Renders.

Import PDFPage.







(** X14.  Speech does not outlive the tool: a re-render that brings another
    tool cancels the synthesiser once, a re-render with the same tool does
    not touch it, and unmounting cancels it twice, once per speech
    effect. *)
Theorem speech_cancelled_with_tool old new s :
  speechSynthesisRef s = true →
  (activeTool old ≠ activeTool new →
   log (update old new s) = log s ++ [SpeechCancel])
  ∧ (activeTool old = activeTool new → log (update old new s) = log s)
  ∧ log (unmount s) = log s ++ [SpeechCancel; SpeechCancel].
Proof.
  intros Hs.
  assert (Hlog : ∀ s0, log (rerender old new s0) = log s0).
  { intros s0. unfold rerender, renderPage_sync.
    by repeat case_match. }
  split; [|split].
  - intros Hne. unfold update. rewrite Hlog. unfold tool_cleanup.
    apply String.eqb_neq in Hne. rewrite Hne.
    unfold cancelSpeech. by rewrite Hs.
  - intros Heq. unfold update. rewrite Hlog. unfold tool_cleanup.
    apply String.eqb_eq in Heq. by rewrite Heq.
  - unfold unmount, cancelSpeech. rewrite Hs. simpl. rewrite Hs. simpl.
    by rewrite <- app_assoc.
Qed.

Lemma speech_cancelled_with_tool_witness :
  let old := Sample.props "tts" 1 (3 # 2) in
  let new := Sample.props "pen" 1 (3 # 2) in
  let sel := Selection.mk false [DOMRect.mk 110 220 80 14] "read me" in
  let h := mkHost (Some sel) None Sample.overlay in
  let s := handleMouseDown old h (Sample.at_ 120 225) initial in
  speechSynthesisRef s = true
  ∧ activeTool old ≠ activeTool new
  ∧ log (update old new s)
    = [SpeechCancel; SpeechSpeak "read me" "en-US"; SpeechCancel].
Proof.
  intros old new sel h s.
  assert (Hne : activeTool old ≠ activeTool new) by discriminate.
  split; [reflexivity|]. split; [exact Hne|].
  exact (proj1 (speech_cancelled_with_tool old new s eq_refl) Hne).
Defined.

End Renders.

(** ** More on the viewer *)

Section Viewer.

Import PDFViewer.

(** X15.  Without a document ([totalPages] below 1, as in the initial
    state) no page can be reached: [goToPage], the two arrow buttons and the
    page input all leave the state as it is. *)
Theorem navigation_needs_a_document n v s :
  totalPages s < 1 →
  goToPage n s = s
  ∧ handlePreviousPage s = s
  ∧ handleNextPage s = s
  ∧ handlePageInput v s = s.
Proof.
  intros Ht.
  assert (H : ∀ m, goToPage m s = s)
    by (intros m; apply goToPage_outside; lia).
  unfold handlePreviousPage, handleNextPage, handlePageInput.
  by rewrite !H.
Qed.

Lemma navigation_needs_a_document_witness :
  totalPages initial < 1
  ∧ goToPage 2 initial = initial
  ∧ handlePreviousPage initial = initial
  ∧ handleNextPage initial = initial
  ∧ handlePageInput (Some 5) initial = initial.
Proof.
  assert (Ht : totalPages initial < 1) by (simpl; lia).
  split; [exact Ht|].
  exact (navigation_needs_a_document 2 (Some 5) initial Ht).
Defined.

(** X16.  The arrow buttons are disabled exactly where their handlers would
    do nothing: a disabled button's handler returns the state it got, and on
    a page of the document an enabled button moves by one page. *)
Theorem arrows_disabled_at_the_ends s :
  (previousDisabled s = true → handlePreviousPage s = s)
  ∧ (nextDisabled s = true → handleNextPage s = s)
  ∧ (in_range s → previousDisabled s = false →
     currentPage (handlePreviousPage s) = currentPage s - 1)
  ∧ (in_range s → nextDisabled s = false →
     currentPage (handleNextPage s) = currentPage s + 1).
Proof.
  unfold previousDisabled, nextDisabled, handlePreviousPage, handleNextPage.
  repeat split.
  - intros H%Z.leb_le. apply goToPage_outside. lia.
  - intros H%Z.leb_le. apply goToPage_outside. lia.
  - intros [H1 H2] H%Z.leb_gt. rewrite goToPage_inside by lia. reflexivity.
  - intros [H1 H2] H%Z.leb_gt. rewrite goToPage_inside by lia. reflexivity.
Qed.

Lemma arrows_disabled_at_the_ends_witness :
  let s := loadPDF (mkFile "paper.pdf" (Some Sample.doc)) initial in
  previousDisabled s = true
  ∧ handlePreviousPage s = s
  ∧ in_range s
  ∧ nextDisabled s = false
  ∧ currentPage (handleNextPage s) = 2.
Proof.
  intros s.
  assert (Hr : in_range s) by (unfold in_range; simpl; lia).
  split; [reflexivity|].
  split; [exact (proj1 (arrows_disabled_at_the_ends s) eq_refl)|].
  split; [exact Hr|]. split; [reflexivity|].
  exact (proj2 (proj2 (proj2 (arrows_disabled_at_the_ends s))) Hr eq_refl).
Defined.

(** X17.  The page input: with a document of at least one page, an empty or
    unparsable value and the value 0 go to page 1; a page of the document is
    gone to; any other number is ignored. *)
Theorem page_input_falls_back_to_first s :
  1 ≤ totalPages s →
  currentPage (handlePageInput None s) = 1
  ∧ currentPage (handlePageInput (Some 0) s) = 1
  ∧ (∀ n, 1 ≤ n ≤ totalPages s →
          currentPage (handlePageInput (Some n) s) = n)
  ∧ (∀ n, n ≠ 0 → ¬ (1 ≤ n ≤ totalPages s) →
          handlePageInput (Some n) s = s).
Proof.
  intros Ht. unfold handlePageInput.
  split; [by rewrite goToPage_inside by lia|].
  split; [by rewrite goToPage_inside by lia|].
  split.
  - intros n Hn. destruct n; [lia| |lia]. by rewrite goToPage_inside.
  - intros n Hn0 Hn. destruct n; [done| |]; by apply goToPage_outside.
Qed.

Lemma page_input_falls_back_to_first_witness :
  let s := goToPage 3 (loadPDF (mkFile "paper.pdf" (Some Sample.doc)) initial) in
  1 ≤ totalPages s
  ∧ currentPage s = 3
  ∧ currentPage (handlePageInput None s) = 1
  ∧ currentPage (handlePageInput (Some 0) s) = 1.
Proof.
  intros s.
  assert (Ht : 1 ≤ totalPages s) by (simpl; lia).
  destruct (page_input_falls_back_to_first s Ht) as (H1 & H2 & _).
  split; [exact Ht|]. split; [reflexivity|]. split; [exact H1|exact H2].
Defined.

Lemma loadPDF_pageTexts file s : pageTexts (loadPDF file s) = pageTexts s.
Proof. unfold loadPDF. by destruct (parsed file). Qed.

(** X18.  Loading a document does not clear the stored page texts: after a
    successful load the assistant panel is given whatever text was stored
    for page 1 before, so the text of the first page of the previous
    document until the new page has been rendered.  The scale and the
    active tool are kept as well. *)
Theorem load_keeps_page_texts file pdf s :
  parsed file = Some pdf →
  pageTexts (loadPDF file s) = pageTexts s
  ∧ AIAssistant.pageText (assistant_props (loadPDF file s))
    = default "" (pageTexts s !! 1)
  ∧ scale (loadPDF file s) = scale s
  ∧ activeTool (loadPDF file s) = activeTool s.
Proof.
  intros Hf.
  destruct (loadPDF_success file pdf s Hf) as (_ & _ & Hc).
  split; [apply loadPDF_pageTexts|].
  split.
  - simpl. by rewrite getCurrentPageText_lookup, loadPDF_pageTexts, Hc.
  - unfold loadPDF. by rewrite Hf.
Qed.

Lemma load_keeps_page_texts_witness :
  let first := loadPDF (mkFile "paper.pdf" (Some Sample.doc)) initial in
  let read := handlePageRendered (mkProps None) 1 "Abstract " first in
  let other := mkFile "thesis.pdf" (Some (PDFDocumentProxy.mk 8 120)) in
  parsed other = Some (PDFDocumentProxy.mk 8 120)
  ∧ AIAssistant.pageText (assistant_props (loadPDF other read)) = "Abstract ".
Proof.
  intros first read other. split; [reflexivity|].
  exact (proj1 (proj2 (load_keeps_page_texts other (PDFDocumentProxy.mk 8 120)
                         read eq_refl))).
Defined.

Lemma handlePageRendered_frame props n t s :
  pdfDocument (handlePageRendered props n t s) = pdfDocument s
  ∧ totalPages (handlePageRendered props n t s) = totalPages s
  ∧ currentPage (handlePageRendered props n t s) = currentPage s
  ∧ scale (handlePageRendered props n t s) = scale s.
Proof. unfold handlePageRendered. by destruct (onPageRender props). Qed.

(** X19.  The page-text store keeps the last text reported for each page:
    a second report for the same page replaces the first, reports for
    different pages do not disturb each other, and a report changes neither
    the document, the page count, the current page nor the scale.  When the
    viewer has an [onPageRender] callback of its own, each report is passed
    on to it. *)
Theorem page_texts_keep_last_report props n m t u s :
  pageTexts (handlePageRendered props n u (handlePageRendered props n t s))
  = pageTexts (handlePageRendered props n u s)
  ∧ (n ≠ m →
     pageTexts (handlePageRendered props n t (handlePageRendered props m u s))
     = pageTexts (handlePageRendered props m u (handlePageRendered props n t s)))
  ∧ (pdfDocument (handlePageRendered props n t s) = pdfDocument s
     ∧ totalPages (handlePageRendered props n t s) = totalPages s
     ∧ currentPage (handlePageRendered props n t s) = currentPage s
     ∧ scale (handlePageRendered props n t s) = scale s)
  ∧ (is_Some (onPageRender props) →
     log (handlePageRendered props n t s) = log s ++ [OnPageRender n t])
  ∧ (onPageRender props = None →
     log (handlePageRendered props n t s) = log s).
Proof.
  rewrite !handlePageRendered_pageTexts.
  split; [apply insert_insert_eq|].
  split; [intros Hne; by apply insert_insert_ne|].
  split; [apply handlePageRendered_frame|].
  unfold handlePageRendered. split.
  - by intros [cb ->].
  - by intros ->.
Qed.

Lemma page_texts_keep_last_report_witness :
  let props := mkProps (Some 4%N) in
  (2 : Z) ≠ 1
  ∧ pageTexts (handlePageRendered props 2 "second "
                 (handlePageRendered props 1 "first " initial))
    = pageTexts (handlePageRendered props 1 "first "
                   (handlePageRendered props 2 "second " initial)).
Proof.
  intros props.
  assert (Hne : (2 : Z) ≠ 1) by lia.
  split; [exact Hne|].
  exact (proj1 (proj2 (page_texts_keep_last_report props 2 1
                         "second " "first " initial)) Hne).
Defined.

(** X20.  A tool button toggles its tool: it switches the tool on when
    another one or none is active and off when it is the active one, in
    which case the overlay stops taking pointer events.  Pressing the same
    button twice while another tool was active therefore ends with no tool
    at all, not with the earlier tool. *)
Theorem tool_button_toggles tool handler s :
  tool ≠ "" →
  (activeTool s = tool →
   activeTool (handleToolClick tool s) = ""
   ∧ PDFPage.pointerEvents (page_props handler (handleToolClick tool s))
     = "none"
   ∧ activeTool (handleToolClick tool (handleToolClick tool s)) = tool)
  ∧ (activeTool s ≠ tool →
     activeTool (handleToolClick tool s) = tool
     ∧ PDFPage.pointerEvents (page_props handler (handleToolClick tool s))
       = "auto"
     ∧ activeTool (handleToolClick tool (handleToolClick tool s)) = "").
Proof.
  intros Htool. unfold handleToolClick, PDFPage.pointerEvents. split.
  - intros ->. simpl. rewrite String.eqb_refl. simpl.
    destruct tool; [done|]. by repeat split.
  - intros Hne%String.eqb_neq. simpl. rewrite Hne. simpl.
    rewrite String.eqb_refl. by destruct tool.
Qed.

Lemma tool_button_toggles_witness :
  let s := handleToolClick "highlight" initial in
  ("pen" : string) ≠ ""
  ∧ activeTool s ≠ "pen"
  ∧ activeTool (handleToolClick "pen" s) = "pen"
  ∧ activeTool (handleToolClick "pen" (handleToolClick "pen" s)) = "".
Proof.
  intros s.
  assert (H1 : ("pen" : string) ≠ "") by discriminate.
  assert (H2 : activeTool s ≠ "pen") by discriminate.
  destruct (proj2 (tool_button_toggles "pen" 0%N s H1) H2) as (Ha & _ & Hb).
  split; [exact H1|]. split; [exact H2|]. split; [exact Ha|exact Hb].
Defined.

(** X21.  Zooming stays in range: zooming in never gives a scale above 3
    and never lowers a scale that is at most 3, zooming out never gives a
    scale below 0.5 and never raises a scale that is at least 0.5, so both
    keep a scale between 0.5 and 3 there; the slider, which reports between
    50 and 300, does too. *)
Theorem zoom_stays_in_bounds s :
  (scale (handleZoomIn s) <= 3)%Q
  ∧ (5 # 10 <= scale (handleZoomOut s))%Q
  ∧ (zoom_in_bounds s →
     zoom_in_bounds (handleZoomIn s)
     ∧ zoom_in_bounds (handleZoomOut s)
     ∧ (scale s <= scale (handleZoomIn s))%Q
     ∧ (scale (handleZoomOut s) <= scale s)%Q)
  ∧ (∀ value, 50 ≤ value ≤ 300 → zoom_in_bounds (handleSlider value s)).
Proof.
  unfold zoom_in_bounds, handleZoomIn, handleZoomOut, handleSlider; simpl.
  split; [apply Q.le_min_r|]. split; [apply Q.le_max_r|]. split.
  - intros [Hlo Hhi].
    assert (Hup : (scale s <= scale s + (2 # 10))%Q).
    { rewrite <- (Qplus_0_r (scale s)) at 1.
      apply Qplus_le_r. discriminate. }
    assert (Hdown : (scale s - (2 # 10) <= scale s)%Q).
    { rewrite <- (Qplus_0_r (scale s)) at 2.
      apply Qplus_le_r. discriminate. }
    repeat split.
    + apply Q.min_glb; [exact (Qle_trans _ _ _ Hlo Hup)|].
      exact (Qle_trans _ _ _ Hlo Hhi).
    + apply Q.le_min_r.
    + apply Q.le_max_r.
    + apply Q.max_lub; [exact (Qle_trans _ _ _ Hdown Hhi)|].
      exact (Qle_trans _ _ _ Hlo Hhi).
    + by apply Q.min_glb.
    + by apply Q.max_lub.
  - intros value [H1 H2]. unfold Qle; simpl. lia.
Qed.

Lemma zoom_stays_in_bounds_witness :
  let s := handleZoomIn initial in
  zoom_in_bounds initial
  ∧ (scale s == 17 # 10)%Q
  ∧ zoom_in_bounds s.
Proof.
  intros s.
  assert (Hb : zoom_in_bounds initial) by (split; discriminate).
  split; [exact Hb|]. split; [reflexivity|].
  exact (proj1 (proj1 (proj2 (proj2 (zoom_stays_in_bounds initial))) Hb)).
Defined.

End Viewer.

(** ** More on the assistant *)

Section AssistantPanel.

Import AIAssistant.

Lemma trim_empty_query s :
  JS.truthy (JS.trim (query s)) = true → JS.truthy (query s) = true.
Proof. by destruct (query s). Qed.

Lemma canned_truthy tab page q : JS.truthy (canned tab page q) = true.
Proof.
  unfold canned, mockResponse.
  destruct (tab =? "summary")%string; [reflexivity|].
  destruct (tab =? "ask")%string; [reflexivity|].
  destruct (tab =? "translate")%string; reflexivity.
Qed.

(** X22.  The fall-backs of the canned answers are never used: a
    submission on the ask or the translate tab is answered only when the
    query is not blank, so the answer on the ask tab always quotes the
    query and the answer on the translate tab always names the typed
    language, never the default [French]. *)
Theorem answers_echo_the_query p s r :
  SetResponse r ∈ handleQuerySubmit p s →
  (activeTab s = "ask" →
   r = "Based on the document content, here's the answer to your question:"
       +:+ JS.nl +:+ JS.nl
       +:+ JS.dquote +:+ query s +:+ JS.dquote +:+ JS.nl +:+ JS.nl
       +:+ "This is a simulated AI response. In a real implementation, this would provide an answer based on the actual content of the PDF using an AI service like OpenAI's GPT.")
  ∧ (activeTab s = "translate" →
     r = "Translated text (" +:+ query s +:+ "):" +:+ JS.nl +:+ JS.nl
         +:+ "This is a simulated translation. In a real implementation, this would provide an actual translation of the selected text using an AI service.").
Proof.
  rewrite handleQuerySubmit_steps.
  destruct (rejected s) eqn:Hrej.
  { intros H. apply list_elem_of_singleton in H. discriminate. }
  intros Hin.
  assert (Hr : r = canned (activeTab s) (currentPage p) (query s)).
  { repeat (apply elem_of_cons in Hin as [Hin|Hin]; [by simplify_eq|]).
    by apply elem_of_nil in Hin. }
  unfold rejected in Hrej.
  split; intros Htab; rewrite Htab in Hrej, Hr; simpl in Hrej;
    rewrite andb_true_r in Hrej; apply negb_false_iff in Hrej;
    apply trim_empty_query in Hrej;
    rewrite Hr; unfold canned, mockResponse, JS.or_else; simpl;
    rewrite Hrej, ?string_app_assoc; reflexivity.
Qed.

Lemma answers_echo_the_query_witness :
  let p := mkProps "Lorem ipsum." 3 12 in
  let s := mkState "pt" "" false "translate" in
  let r :=
    "Translated text (pt):" +:+ JS.nl +:+ JS.nl
      +:+ "This is a simulated translation. In a real implementation, this would provide an actual translation of the selected text using an AI service." in
  SetResponse r ∈ handleQuerySubmit p s
  ∧ r = "Translated text (" +:+ query s +:+ "):" +:+ JS.nl +:+ JS.nl
        +:+ "This is a simulated translation. In a real implementation, this would provide an actual translation of the selected text using an AI service.".
Proof.
  intros p s r.
  assert (Hin : SetResponse r ∈ handleQuerySubmit p s).
  { do 3 apply list_elem_of_further. apply list_elem_of_here. }
  split; [exact Hin|].
  exact (proj2 (answers_echo_the_query p s r Hin) eq_refl).
Defined.

(** X23.  A submission never changes the query or the tab.  One that is
    rejected for a blank query changes nothing; one that is answered has
    the loading flag on while it waits, off at the end, and ends with a
    non-empty response, so the result block is shown. *)
Theorem submission_frame p s :
  query (submit p s) = query s
  ∧ activeTab (submit p s) = activeTab s
  ∧ (rejected s = true → submit p s = s)
  ∧ (rejected s = false →
     isLoading (submit p s) = false
     ∧ resultShown (submit p s) = true
     ∧ ∀ pre ms post,
         handleQuerySubmit p s = pre ++ Delay ms :: post →
         isLoading (after pre s) = true).
Proof.
  unfold submit. rewrite handleQuerySubmit_steps.
  destruct (rejected s) eqn:Hrej; simpl.
  - split; [done|]. split; [done|]. split; [intros _; by destruct s|done].
  - split; [done|]. split; [done|]. split; [done|]. intros _.
    split; [done|]. split; [apply canned_truthy|].
    intros pre ms post H.
    destruct pre as [|a1 [|a2 [|a3 pre]]]; simplify_eq/=; [done|].
    destruct pre as [|a4 [|a5 [|a6 pre]]]; discriminate.
Qed.

Lemma submission_frame_witness :
  let p := mkProps "Lorem ipsum." 3 12 in
  let s := mkState "  " "earlier answer" false "ask" in
  rejected s = true ∧ submit p s = s.
Proof.
  intros p s. split; [reflexivity|].
  exact (proj1 (proj2 (proj2 (submission_frame p s))) eq_refl).
Defined.

(** X24.  The buttons and the guard of the handler: a submission from the
    summary tab is always answered, and so is one from the ask tab whenever
    its button is enabled; the translate button does not look at the query,
    so with a blank query it can be pressed and the submission does
    nothing.  With an empty page text all three buttons are disabled. *)
Theorem buttons_and_guard p s :
  (activeTab s = "summary" → rejected s = false)
  ∧ (askDisabled p s = false → rejected s = false)
  ∧ (activeTab s = "translate" →
     JS.trim (query s) = "" →
     translateDisabled p s = isLoading s || negb (JS.truthy (pageText p))
     ∧ handleQuerySubmit p s = [PreventDefault]
     ∧ submit p s = s)
  ∧ (pageText p = "" →
     summaryDisabled p s = true
     ∧ askDisabled p s = true
     ∧ translateDisabled p s = true).
Proof.
  split; [|split; [|split]].
  - intros H. unfold rejected. rewrite H. simpl. apply andb_false_r.
  - unfold askDisabled, rejected. intros H.
    apply orb_false_iff in H as [H _]. apply orb_false_iff in H as [_ H].
    by rewrite H.
  - intros Htab Htrim.
    assert (Hrej : rejected s = true).
    { unfold rejected. by rewrite Htab, Htrim. }
    split; [done|]. unfold submit.
    rewrite handleQuerySubmit_steps, Hrej. simpl. by destruct s.
  - intros H. unfold summaryDisabled, askDisabled, translateDisabled.
    rewrite H. simpl. by rewrite !orb_true_r.
Qed.

Lemma buttons_and_guard_witness :
  let p := mkProps "Lorem ipsum." 3 12 in
  let s := mkState "" "" false "translate" in
  activeTab s = "translate"
  ∧ JS.trim (query s) = ""
  ∧ translateDisabled p s = false
  ∧ handleQuerySubmit p s = [PreventDefault].
Proof.
  intros p s.
  destruct (proj1 (proj2 (proj2 (buttons_and_guard p s))) eq_refl eq_refl)
    as (Hd & Hq & _).
  split; [reflexivity|]. split; [reflexivity|].
  split; [by rewrite Hd|exact Hq].
Defined.

(** X25.  Going to a page whose text has not been stored gives the panel an
    empty page text, and with it all three submit buttons are disabled
    until that page has been rendered. *)
Theorem unrendered_page_disables_panel n v s :
  1 ≤ n ≤ PDFViewer.totalPages v →
  PDFViewer.pageTexts v !! n = None →
  let props := PDFViewer.assistant_props (PDFViewer.goToPage n v) in
  currentPage props = n
  ∧ pageText props = ""
  ∧ summaryDisabled props s = true
  ∧ askDisabled props s = true
  ∧ translateDisabled props s = true.
Proof.
  intros Hn Hnone props.
  assert (Hpage : currentPage props = n).
  { unfold props. simpl. by rewrite goToPage_inside. }
  assert (Htext : pageText props = "").
  { unfold props. simpl. rewrite getCurrentPageText_lookup.
    rewrite goToPage_inside by done. simpl. by rewrite Hnone. }
  split; [exact Hpage|]. split; [exact Htext|].
  unfold summaryDisabled, askDisabled, translateDisabled.
  rewrite Htext. simpl. by rewrite !orb_true_r.
Qed.

Lemma unrendered_page_disables_panel_witness :
  let v :=
    PDFViewer.handlePageRendered (PDFViewer.mkProps None) 1 "Abstract "
      (PDFViewer.loadPDF (PDFViewer.mkFile "paper.pdf" (Some Sample.doc))
         PDFViewer.initial) in
  let props := PDFViewer.assistant_props (PDFViewer.goToPage 2 v) in
  1 ≤ 2 ≤ PDFViewer.totalPages v
  ∧ PDFViewer.pageTexts v !! 2 = None
  ∧ pageText (PDFViewer.assistant_props v) = "Abstract "
  ∧ pageText props = ""
  ∧ summaryDisabled props initial = true.
Proof.
  intros v props.
  assert (Hn : 1 ≤ 2 ≤ PDFViewer.totalPages v) by (simpl; lia).
  assert (Hnone : PDFViewer.pageTexts v !! 2 = None) by reflexivity.
  destruct (unrendered_page_disables_panel 2 v initial Hn Hnone)
    as (_ & Ht & Hd & _).
  split; [exact Hn|]. split; [exact Hnone|]. split; [reflexivity|].
  split; [exact Ht|exact Hd].
Defined.

End AssistantPanel.

(** ** The page element inside the viewer *)

Section Composition.

Lemma fresh_handler n : PDFPage.same_callback (Some n) (Some (N.succ n)) = false.
Proof. simpl. apply N.eqb_neq. lia. Qed.

Lemma deps_changed_fresh old new n :
  PDFPage.onPageRendered old = Some n →
  PDFPage.onPageRendered new = Some (N.succ n) →
  PDFPage.deps_changed old new = true.
Proof.
  intros Ho Hn. unfold PDFPage.deps_changed.
  by rewrite Ho, Hn, fresh_handler, andb_false_r.
Qed.

Lemma rerender_resets v a :
  is_Some (PDFViewer.pdfDocument v) →
  is_Some (PDFPage.canvasRef (App.page a)) →
  is_Some (PDFPage.textLayerRef (App.page a)) →
  no_annotations (App.page (App.rerender v a)).
Proof.
  intros [d Hd] [c Hc] [l Hl]. unfold App.rerender. simpl.
  unfold PDFPage.update, PDFPage.rerender, App.props.
  rewrite (deps_changed_fresh _ _ (App.renders a)) by reflexivity.
  apply renderPage_sync_ready.
  destruct (tool_cleanup_frame
              (PDFViewer.page_props (App.renders a) (App.viewer a))
              (PDFViewer.page_props (N.succ (App.renders a)) v)
              (App.page a)) as (_ & _ & _ & _ & Hc' & Hl').
  unfold PDFPage.renderPage_ready. simpl. by rewrite Hd, Hc', Hl', Hc, Hl.
Qed.

(** X11.  Inside the viewer the page is rendered anew on every render of
    the viewer, because each render passes a new [handlePageRendered]
    closure and [onPageRendered] is a dependency of the render effect.
    With a document loaded and the page element mounted, choosing or
    leaving a tool, picking another highlight colour, and the page's own
    report of its text each empty the four annotation lists. *)
Theorem viewer_render_resets_annotations a :
  is_Some (PDFViewer.pdfDocument (App.viewer a)) →
  is_Some (PDFPage.canvasRef (App.page a)) →
  is_Some (PDFPage.textLayerRef (App.page a)) →
  (∀ tool, tool ≠ "" → no_annotations (App.page (App.clickTool tool a)))
  ∧ (∀ color,
       color ≠ PDFViewer.highlightColor (App.viewer a) →
       no_annotations (App.page (App.pickColor color a)))
  ∧ (∀ p n t, no_annotations (App.page (App.pageRendered p n t a))).
Proof.
  intros Hd Hc Hl. split; [|split].
  - intros tool Htool. unfold App.clickTool, PDFViewer.handleToolClick.
    simpl.
    destruct (PDFViewer.activeTool (App.viewer a) =? tool)%string eqn:E.
    + apply String.eqb_eq in E. rewrite E.
      destruct tool as [|ch tool]; [done|]. simpl.
      by apply rerender_resets.
    + rewrite String.eqb_sym, E. by apply rerender_resets.
  - intros color Hne%String.eqb_neq. unfold App.pickColor. rewrite Hne.
    by apply rerender_resets.
  - intros p n t. unfold App.pageRendered. apply rerender_resets; [|done..].
    by destruct (handlePageRendered_frame p n t (App.viewer a)) as (-> & _).
Qed.

Lemma viewer_render_resets_annotations_witness :
  let v := PDFViewer.handleToolClick "shape"
             (PDFViewer.loadPDF (PDFViewer.mkFile "paper.pdf" (Some Sample.doc))
                PDFViewer.initial) in
  let p := PDFViewer.page_props 5 v in
  let drawn :=
    PDFPage.run [PDFPage.MouseDown p Sample.idle (Sample.at_ 60 80);
                 PDFPage.MouseUp p (Sample.at_ 30 110)] PDFPage.initial in
  let a := App.mk v 5 drawn in
  is_Some (PDFViewer.pdfDocument (App.viewer a))
  ∧ is_Some (PDFPage.canvasRef (App.page a))
  ∧ is_Some (PDFPage.textLayerRef (App.page a))
  ∧ PDFPage.shapes (App.page a)
    = [Shape.mk "rectangle" 20 60 30 30 "#FEF7CD"]
  ∧ no_annotations (App.page (App.clickTool "pen" a))
  ∧ no_annotations (App.page (App.pickColor "#FFDEE2" a)).
Proof.
  intros v p drawn a.
  assert (Hd : is_Some (PDFViewer.pdfDocument (App.viewer a)))
    by (by eexists).
  assert (Hc : is_Some (PDFPage.canvasRef (App.page a))) by (by eexists).
  assert (Hl : is_Some (PDFPage.textLayerRef (App.page a))) by (by eexists).
  destruct (viewer_render_resets_annotations a Hd Hc Hl) as (Ht & Hcol & _).
  split; [exact Hd|]. split; [exact Hc|]. split; [exact Hl|].
  split; [reflexivity|].
  split; [apply Ht; discriminate|apply Hcol; discriminate].
Defined.

End Composition.
